(** * fetch_supplier_id.py: supplier directory lookup over the iiko/Syrve API

    A shallow embedding of the script: Python values, the exceptions the
    script can meet, a trace of the effects it performs (HTTP calls, log
    records, console lines), and the five functions [login], [logout],
    [fetch_all_suppliers], [fetch_supplier_id], [pretty_print_suppliers]
    together with [main], followed by the properties of the directory
    normalisation, the name lookup and the session life cycle. *)

From stdpp Require Import gmap strings list pretty.

Local Open Scope string_scope.

(** ** Python values *)

(** A double: what [bool(x)] needs to know about it. *)
Inductive pyfloat :=
| FNan
| FInf (neg : bool)
| FFinite (neg : bool) (mantissa : N) (exponent : Z).

(** The values [json.loads] produces, which are also the values the
    script stores in its records. A [dict] with [str] keys is a finite
    map: the script only reads it with [get] and writes it with
    [d[k] = v]. *)
#[warnings="-register-all"] Inductive pyval :=
| PNone
| PBool (b : bool)
| PInt (n : Z)
| PFloat (f : pyfloat)
| PStr (s : string)
| PList (l : list pyval)
| PDict (d : gmap string pyval).

(** [bool(v)], as used by [if found_id:]. *)
Definition truthy (v : pyval) : bool :=
  match v with
  | PNone => false
  | PBool b => b
  | PInt n => negb (n =? 0)%Z
  | PFloat FNan => true
  | PFloat (FInf _) => true
  | PFloat (FFinite _ m _) => negb (m =? 0)%N
  | PStr s => negb (String.eqb s "")
  | PList l => negb (bool_decide (length l = 0))
  | PDict d => negb (bool_decide (size d = 0))
  end.

(** ** Exceptions *)

Inductive exn :=
| ConnectionError (why : string)   (* requests: transport failure, timeout *)
| HTTPError (status : Z)           (* requests: raise_for_status *)
| JSONDecodeError                  (* response.json() on a non-JSON body *)
| ParseError                       (* ElementTree.fromstring on ill-formed XML *)
| AttributeError (attr : string)   (* v.attr on a value without attr *)
| RecursionError                   (* response.json() on a body nested too deep *)
| UnicodeEncodeError               (* print of a line sys.stdout cannot encode *)
| SystemExit (code : Z).           (* sys.exit(code) *)

(** [isinstance(e, requests.exceptions.RequestException)] *)
Definition is_RequestException (e : exn) : bool :=
  match e with
  | ConnectionError _ | HTTPError _ | JSONDecodeError => true
  | _ => false
  end.

(** [isinstance(e, ValueError)] *)
Definition is_ValueError (e : exn) : bool :=
  match e with
  | JSONDecodeError => true
  | _ => false
  end.

(** The outcome of an expression that may raise. *)
Inductive result (A : Type) :=
| Ok (a : A)
| Raise (e : exn).
Arguments Ok {A} a.
Arguments Raise {A} e.

#[global] Instance result_ret : MRet result := fun A a => Ok a.
#[global] Instance result_bind : MBind result :=
  fun A B f m => match m with Ok a => f a | Raise e => Raise e end.

(** ** The str and dict operations the script calls *)

(** [str.strip], [str.lower], [str.upper], [len] and [str(v)] are
    interpreter builtins over Unicode text; the script is modelled over
    any implementation of them. *)
Class Builtins := {
  str_strip : string → string;
  str_lower : string → string;
  str_upper : string → string;
  str_len : string → nat;
  py_str : pyval → string;
}.

(** [v.get(key, dflt)]: only a dict has [get]. *)
Definition py_get (v : pyval) (key : string) (dflt : pyval) : result pyval :=
  match v with
  | PDict d => Ok (default dflt (d !! key))
  | _ => Raise (AttributeError "get")
  end.

(** [v.strip()] and [v.lower()]: only a str has them. *)
Definition py_strip `{Builtins} (v : pyval) : result pyval :=
  match v with
  | PStr s => Ok (PStr (str_strip s))
  | _ => Raise (AttributeError "strip")
  end.

Definition py_lower `{Builtins} (v : pyval) : result pyval :=
  match v with
  | PStr s => Ok (PStr (str_lower s))
  | _ => Raise (AttributeError "lower")
  end.

(** [a == b] where [b] is a str. *)
Definition py_eq_str (a : pyval) (b : string) : bool :=
  match a with
  | PStr s => String.eqb s b
  | _ => false
  end.

(** A str is kept as the bytes of its UTF-8 encoding. A lone surrogate,
    which [json.loads] makes of an escape such as \ud800 and which UTF-8
    has no encoding for, is kept as the three bytes ED A0..BF 80..BF.
    [sys.stdout], taken to encode UTF-8, refuses a line that holds one. *)
Fixpoint has_surrogate (s : string) : bool :=
  match s with
  | String c1 rest =>
      match rest with
      | String c2 _ =>
          ((Ascii.N_of_ascii c1 =? 237) && (160 <=? Ascii.N_of_ascii c2)
             && (Ascii.N_of_ascii c2 <=? 191))%N
          || has_surrogate rest
      | EmptyString => false
      end
  | EmptyString => false
  end.

(** [s * n], [sep.join(l)] and [s.ljust(w)]. *)
Fixpoint str_mul (s : string) (n : nat) : string :=
  match n with
  | O => ""
  | S n' => s ++ str_mul s n'
  end.

Definition str_join (sep : string) (l : list string) : string :=
  String.concat sep l.

Definition ljust `{Builtins} (s : string) (w : nat) : string :=
  s ++ str_mul " " (w - str_len s).

(** ** xml.etree.ElementTree *)

Module ElementTree.

(** An element as the script reads it: its tag, its [text] ([None] when
    the element has no character data before its first child) and its
    child elements in document order. *)
#[warnings="-register-all"] Inductive Element :=
| Elem (tag : string) (text : option string) (children : list Element).

Definition tag (e : Element) : string :=
  match e with Elem t _ _ => t end.
Definition text (e : Element) : option string :=
  match e with Elem _ x _ => x end.
Definition children (e : Element) : list Element :=
  match e with Elem _ _ c => c end.

(** [e.findall(name)]: the immediate children with that tag. *)
Definition findall (name : string) (e : Element) : list Element :=
  filter (λ c, tag c = name) (children e).

End ElementTree.

(** ** requests *)

Module requests.

(** What [response.json()] comes to: the value of a JSON body, a
    [ValueError] on a body that is not JSON, a [RecursionError] on JSON
    nested beyond the limit of the interpreter. *)
Inductive json_outcome :=
| Parsed (v : pyval)
| NotJson
| TooDeep.

(** A received response, through the three views the script takes of
    it: the status line, [response.json()], and
    [ElementTree.fromstring(response.text)] ([None] when the body is not
    well-formed XML). *)
Record Response := {
  status_code : Z;
  text : string;
  json : json_outcome;
  xml : option ElementTree.Element;
}.

(** What a call to the server comes to. *)
Inductive reply :=
| NoReply (why : string)
| Replied (r : Response).

(** The server and the network between: a reply for each request. *)
Record world := {
  on_post : string → list (string * string) → reply;
  on_get : string → list (string * string) → reply;
}.

End requests.

(** ** Effects *)

Inductive level := INFO | WARNING | ERROR.

(** The log records of the script; each stands for one f-string. *)
Inductive message :=
| MsgAuthOk (token : string)          (* "Успешная авторизация. Получен токен: {token}" *)
| MsgAuthError (exc : exn)            (* "Ошибка при авторизации: {exc}" *)
| MsgLogoutOk                         (* "Успешный logout. Лицензия освобождена." *)
| MsgLogoutStatus (status : Z)        (* "Logout вернул статус {status}." *)
| MsgLogoutError (exc : exn)          (* "Ошибка при logout: {exc}" *)
| MsgXmlFallback                      (* "Похоже, /suppliers вернуло XML. Считываем как XML." *)
| MsgUnknownRoot (tag : string)       (* "Неизвестный корневой тег: {tag}" *)
| MsgFetchError (exc : exn)           (* "Ошибка при получении списка поставщиков: {exc}" *)
| MsgFound (name : string) (id : pyval)  (* "Найден поставщик '{name}', ID: {id}" *)
| MsgNotFound (name : string).        (* "Поставщик '{name}' не найден." *)

Inductive event :=
| HttpPost (url : string) (data : list (string * string)) (timeout : Z)
| HttpGet (url : string) (params : list (string * string)) (timeout : Z)
| Log (lvl : level) (msg : message)
| Stdout (line : string).

Definition trace := list event.

(** A statement: it extends the trace and returns or raises. *)
Definition M (A : Type) : Type := trace → result A * trace.

#[global] Instance M_ret : MRet M := fun A a t => (Ok a, t).
#[global] Instance M_bind : MBind M :=
  fun A B f m t =>
    match m t with
    | (Ok a, t') => f a t'
    | (Raise e, t') => (Raise e, t')
    end.

Definition emit (ev : event) : M unit :=
  fun t => (Ok tt, (t ++ [ev])%list).

Definition raise {A} (e : exn) : M A :=
  fun t => (Raise e, t).

Definition lift {A} (r : result A) : M A :=
  fun t => (r, t).

(** [try: body / except cls as exc: handler exc] *)
Definition try_except {A} (body : M A) (cls : exn → bool) (handler : exn → M A) : M A :=
  fun t =>
    match body t with
    | (Raise e, t') => if cls e then handler e t' else (Raise e, t')
    | r => r
    end.

(** [try: body / finally: cleanup] *)
Definition try_finally {A} (body : M A) (cleanup : M unit) : M A :=
  fun t =>
    match body t with
    | (r, t') =>
        match cleanup t' with
        | (Ok _, t'') => (r, t'')
        | (Raise e, t'') => (Raise e, t'')
        end
    end.

(** [for x in l: body x] *)
Fixpoint for_each {A} (l : list A) (body : A → M unit) : M unit :=
  match l with
  | [] => mret tt
  | x :: rest => _ ← body x; for_each rest body
  end.

Definition logging (lvl : level) (msg : message) : M unit :=
  emit (Log lvl msg).

(** [print(line)] *)
Definition print (line : string) : M unit :=
  if has_surrogate line then raise UnicodeEncodeError else emit (Stdout line).

Definition sys_exit {A} (code : Z) : M A :=
  raise (SystemExit code).

(** [session.post(url, data=data, timeout=timeout)] *)
Definition session_post (w : requests.world) (url : string)
    (data : list (string * string)) (timeout : Z) : M requests.Response :=
  _ ← emit (HttpPost url data timeout);
  match requests.on_post w url data with
  | requests.NoReply why => raise (ConnectionError why)
  | requests.Replied r => mret r
  end.

(** [session.get(url, params=params, timeout=timeout)] *)
Definition session_get (w : requests.world) (url : string)
    (params : list (string * string)) (timeout : Z) : M requests.Response :=
  _ ← emit (HttpGet url params timeout);
  match requests.on_get w url params with
  | requests.NoReply why => raise (ConnectionError why)
  | requests.Replied r => mret r
  end.

(** [response.raise_for_status()] *)
Definition raise_for_status (r : requests.Response) : M unit :=
  if bool_decide (400 ≤ requests.status_code r < 600)%Z
  then raise (HTTPError (requests.status_code r))
  else mret tt.

(** [response.json()] *)
Definition response_json (r : requests.Response) : M pyval :=
  match requests.json r with
  | requests.Parsed v => mret v
  | requests.NotJson => raise JSONDecodeError
  | requests.TooDeep => raise RecursionError
  end.

(** [ElementTree.fromstring(response.text)] *)
Definition ElementTree_fromstring (r : requests.Response) : M ElementTree.Element :=
  match requests.xml r with
  | Some root => mret root
  | None => raise ParseError
  end.

(** A statement that makes no POST request: it only extends the trace,
    and with other events. *)
Definition is_post (ev : event) : bool :=
  match ev with HttpPost _ _ _ => true | _ => false end.

Definition quiet {A} (m : M A) : Prop :=
  ∀ t, ∃ es, (m t).2 = (t ++ es)%list ∧ Forall (λ ev, is_post ev = false) es.

(** The network events of a trace, in order, and the events that stay
    on the machine. *)
Definition is_request (ev : event) : bool :=
  match ev with HttpPost _ _ _ | HttpGet _ _ _ => true | _ => false end.

Definition requests_of (t : trace) : list event :=
  List.filter is_request t.

(** The lines printed on the console, in order. *)
Definition printed (t : trace) : list string :=
  omap (λ ev, match ev with Stdout line => Some line | _ => None end) t.

(** ** The script *)

(** The three settings at the top of the script (empty placeholders in
    the repository, filled in per installation). *)
Class Config := {
  LOGIN : string;
  PASSWORD_SHA1 : string;
  IIKO_HOST : string;
}.

Section script.
Context `{Config} `{Builtins}.

Definition auth_url : string := IIKO_HOST ++ "/resto/api/auth".
Definition logout_url : string := IIKO_HOST ++ "/resto/api/logout".
Definition suppliers_url : string := IIKO_HOST ++ "/resto/api/suppliers".

(** [login(session)]: the session token, or the end of the process. *)
Definition login (w : requests.world) : M string :=
  try_except
    (response ← session_post w auth_url [("login", LOGIN); ("pass", PASSWORD_SHA1)] 10;
     _ ← raise_for_status response;
     let token := str_strip (requests.text response) in
     _ ← logging INFO (MsgAuthOk token);
     mret token)
    is_RequestException
    (λ exc,
     _ ← logging ERROR (MsgAuthError exc);
     sys_exit 1).

(** [logout(session, token)] *)
Definition logout (w : requests.world) (token : string) : M unit :=
  try_except
    (response ← session_post w logout_url [("key", token)] 10;
     if bool_decide (requests.status_code response = 200)%Z
     then logging INFO MsgLogoutOk
     else logging WARNING (MsgLogoutStatus (requests.status_code response)))
    is_RequestException
    (λ exc, logging WARNING (MsgLogoutError exc)).

(** [child.text or ""] *)
Definition text_or_empty (child : ElementTree.Element) : string :=
  match ElementTree.text child with
  | Some s => if String.eqb s "" then "" else s
  | None => ""
  end.

(** The inner loop, lines 104-106: [emp_data[child.tag] = child.text or ""]
    for each child of [emp] in document order, from the empty dict. *)
Definition emp_data (emp : ElementTree.Element) : gmap string pyval :=
  foldl (λ d child, <[ElementTree.tag child := PStr (text_or_empty child)]> d)
        ∅ (ElementTree.children emp).

(** The XML branch, lines 76-109, entered when [response.json()] raised. *)
Definition suppliers_from_xml (response : requests.Response) : M (list pyval) :=
  _ ← logging WARNING MsgXmlFallback;
  root ← ElementTree_fromstring response;
  if String.eqb (ElementTree.tag root) "employees" then
    mret (map (λ emp, PDict (emp_data emp)) (ElementTree.findall "employee" root))
  else if String.eqb (ElementTree.tag root) "employee" then
    mret (map (λ emp, PDict (emp_data emp)) [root])
  else
    _ ← logging ERROR (MsgUnknownRoot (ElementTree.tag root));
    mret [].

(** [fetch_all_suppliers(session, token)] *)
Definition fetch_all_suppliers (w : requests.world) (token : string) : M (list pyval) :=
  try_except
    (response ← session_get w suppliers_url [("key", token)] 10;
     _ ← raise_for_status response;
     try_except
       (suppliers ← response_json response;
        mret (match suppliers with PList l => l | _ => [] end))
       is_ValueError
       (λ _, suppliers_from_xml response))
    is_RequestException
    (λ exc,
     _ ← logging ERROR (MsgFetchError exc);
     mret []).

(** [fetch_supplier_id(suppliers, supplier_name)] *)
Fixpoint fetch_supplier_id (suppliers : list pyval) (supplier_name : string) : result pyval :=
  match suppliers with
  | [] => Ok PNone
  | sup :: rest =>
      name ← py_get sup "name" (PStr "");
      stripped ← py_strip name;
      lowered ← py_lower stripped;
      if py_eq_str lowered (str_lower supplier_name)
      then py_get sup "id" PNone
      else fetch_supplier_id rest supplier_name
  end.

(** [pretty_print_suppliers(suppliers)] *)
Definition columns : list string := ["id"; "code"; "name"; "supplier"; "deleted"].

Definition table_row (s : pyval) : result (list string) :=
  mapM (λ col, v ← py_get s col (PStr ""); mret (py_str v)) columns.

Definition pretty_print_suppliers (suppliers : list pyval) : M unit :=
  if bool_decide (suppliers = []) then
    print "Список поставщиков пуст!"
  else
    let headers := map str_upper columns in
    rows ← lift (mapM table_row suppliers);
    let col_widths :=
      map (λ i, max_list (map (λ row : list string, str_len (row !!! i)) (rows ++ [headers])%list))
          (seq 0 (length columns)) in
    let separator := str_join "+" (map (λ w, str_mul "-" (w + 2)) col_widths) in
    let separator := "+" ++ separator ++ "+" in
    let header_row :=
      str_join "|" (map (λ i, " " ++ ljust (headers !!! i) (col_widths !!! i) ++ " ")
                        (seq 0 (length headers))) in
    let header_row := "|" ++ header_row ++ "|" in
    _ ← print separator;
    _ ← print header_row;
    _ ← print separator;
    _ ← for_each rows
          (λ row : list string,
           let row_str :=
             str_join "|" (map (λ i, " " ++ ljust (row !!! i) (col_widths !!! i) ++ " ")
                               (seq 0 (length row))) in
           print ("|" ++ row_str ++ "|"));
    print separator.

Definition search_name : string := "Лубчук Л.В. ФОП".

(** The [try] block of [main], lines 184-196. *)
Definition main_body (w : requests.world) (token : string) : M unit :=
  suppliers ← fetch_all_suppliers w token;
  _ ← pretty_print_suppliers suppliers;
  found_id ← lift (fetch_supplier_id suppliers search_name);
  if truthy found_id
  then logging INFO (MsgFound search_name found_id)
  else logging WARNING (MsgNotFound search_name).

(** [main()]: the [with requests.Session()] block closes the session on
    the way out and lets every exception through. *)
Definition main (w : requests.world) : M unit :=
  token ← login w;
  try_finally (main_body w token) (logout w token).

(** [if __name__ == "__main__": main()] under the interpreter: status 0
    when [main] returns, the argument of [sys.exit], and 1 after the
    traceback of any other exception. *)
Definition exit_status (r : result unit) : Z :=
  match r with
  | Ok _ => 0
  | Raise (SystemExit code) => code
  | Raise _ => 1
  end.

Definition run (w : requests.world) : Z * trace :=
  let '(r, t) := main w [] in (exit_status r, t).

End script.

(** ** What the properties are stated with *)

Section vocabulary.
Context `{Config} `{Builtins}.

(** The form fields of the two POST requests and the query of the GET. *)
Definition credentials : list (string * string) :=
  [("login", LOGIN); ("pass", PASSWORD_SHA1)].

Definition key_of (token : string) : list (string * string) :=
  [("key", token)].

(** A status that [raise_for_status] lets through. *)
Definition status_ok (r : requests.Response) : Prop :=
  ¬ (400 ≤ requests.status_code r < 600)%Z.

(** The [data] of every POST to the logout endpoint, in order. *)
Definition logout_calls (t : trace) : list (list (string * string)) :=
  omap (λ ev, match ev with
              | HttpPost url data _ =>
                  if bool_decide (url = logout_url) then Some data else None
              | _ => None
              end) t.

(** A record as the directory is expected to hold them: a dict whose
    ["name"], when present, is a str. *)
Definition is_dict (v : pyval) : Prop :=
  match v with PDict _ => True | _ => False end.

Definition is_record (v : pyval) : Prop :=
  match v with
  | PDict d => match d !! "name" with
               | None | Some (PStr _) => True
               | Some _ => False
               end
  | _ => False
  end.

(** The name of a record as the lookup reads it, and the comparison the
    lookup makes: the name stripped and lower-cased against the query
    lower-cased. *)
Definition record_name (v : pyval) : string :=
  match v with
  | PDict d => match d !! "name" with Some (PStr s) => s | _ => "" end
  | _ => ""
  end.

Definition record_id (v : pyval) : pyval :=
  match v with
  | PDict d => default PNone (d !! "id")
  | _ => PNone
  end.

Definition name_matches (v : pyval) (supplier_name : string) : Prop :=
  str_lower (str_strip (record_name v)) = str_lower supplier_name.

#[global] Instance is_dict_dec v : Decision (is_dict v).
Proof. destruct v; apply _. Defined.

#[global] Instance name_matches_dec v supplier_name :
  Decision (name_matches v supplier_name).
Proof. unfold name_matches. apply _. Defined.

(** The lookup as the specification words it: the first record, in
    sequence order, whose name equals the target once both sides are
    trimmed and case-folded; nothing when there is none. *)
Fixpoint findByName_spec (records : list pyval) (targetName : string) : option pyval :=
  match records with
  | [] => None
  | r :: rest =>
      if String.eqb (str_lower (str_strip (record_name r)))
                    (str_lower (str_strip targetName))
      then Some (record_id r)
      else findByName_spec rest targetName
  end.

(** The exception a request ends in, when it fails in transport or by
    its status. *)
Definition request_failure (rep : requests.reply) : option exn :=
  match rep with
  | requests.NoReply why => Some (ConnectionError why)
  | requests.Replied r =>
      if bool_decide (400 ≤ requests.status_code r < 600)%Z
      then Some (HTTPError (requests.status_code r))
      else None
  end.

(** The record of an [employee] element: for every field name, the text
    of the last immediate child with that tag, the empty string when
    that child has no text; no field for a tag no child has. *)
Definition record_of (emp : ElementTree.Element) (v : pyval) : Prop :=
  ∃ d, v = PDict d ∧
    ∀ k, d !! k =
      (λ c, PStr (default "" (ElementTree.text c))) <$>
        last (filter (λ c, ElementTree.tag c = k) (ElementTree.children emp)).

(** The same with every child's own text under its tag, as the
    specification words it. *)
Definition maps_every_child (emp : ElementTree.Element) (v : pyval) : Prop :=
  ∃ d, v = PDict d ∧
    ∀ c, c ∈ ElementTree.children emp →
      d !! ElementTree.tag c = Some (PStr (default "" (ElementTree.text c))).

(** The log record that closes the [try] block of [main]. *)
Definition report (found_id : pyval) : event :=
  if truthy found_id
  then Log INFO (MsgFound search_name found_id)
  else Log WARNING (MsgNotFound search_name).

(** Two records that the table cannot tell apart: dicts with the same
    values under the five columns. *)
Definition same_columns (a b : pyval) : Prop :=
  ∃ d1 d2, a = PDict d1 ∧ b = PDict d2 ∧
    ∀ col, col ∈ columns → d1 !! col = d2 !! col.

(** The table as [pretty_print_suppliers] lays it out from its rows of
    cells: the width of each column, the separator, one line per row,
    and the lines in the order they are printed. *)
Definition col_widths (rows : list (list string)) : list nat :=
  map (λ i, max_list (map (λ row : list string, str_len (row !!! i))
                          (rows ++ [map str_upper columns])%list))
      (seq 0 (length columns)).

Definition table_separator (widths : list nat) : string :=
  "+" ++ str_join "+" (map (λ w, str_mul "-" (w + 2)) widths) ++ "+".

Definition table_line (widths : list nat) (row : list string) : string :=
  "|" ++ str_join "|" (map (λ i, " " ++ ljust (row !!! i) (widths !!! i) ++ " ")
                           (seq 0 (length row))) ++ "|".

Definition table_lines (rows : list (list string)) : list string :=
  ([table_separator (col_widths rows);
    table_line (col_widths rows) (map str_upper columns);
    table_separator (col_widths rows)] ++
   map (table_line (col_widths rows)) rows ++
   [table_separator (col_widths rows)])%list.

(** What the table needs of [len]: it adds up over concatenation and
    counts an ASCII character as one. *)
Definition len_counts_characters : Prop :=
  (∀ a b, str_len (a ++ b) = str_len a + str_len b) ∧
  (∀ c, (Ascii.N_of_ascii c < 128)%N → str_len (String c "") = 1).

(** The console: the lines it takes of a sequence printed one after
    the other, which are those before the first it cannot encode, and
    how the printing ends. *)
Definition printable (line : string) : Prop := has_surrogate line = false.

Fixpoint accepted (lines : list string) : list string :=
  match lines with
  | [] => []
  | line :: rest => if has_surrogate line then [] else line :: accepted rest
  end.

Definition print_outcome (lines : list string) : result unit :=
  if forallb (λ line, negb (has_surrogate line)) lines
  then Ok tt
  else Raise UnicodeEncodeError.

(** The text [pretty_print_suppliers] sets out to print: the notice for
    the empty list, the table otherwise; [AttributeError] when a row
    cannot be built. *)
Definition table_text (suppliers : list pyval) : result (list string) :=
  if bool_decide (suppliers = []) then Ok ["Список поставщиков пуст!"]
  else rows ← mapM table_row suppliers; mret (table_lines rows).

End vocabulary.

(** ** A reference implementation of the builtins and a sample server *)

Module Sample.

(** The str builtins as they act on ASCII text (bytes outside ASCII are
    left as they are), and [str(v)] on None, bool, int and str cells; the
    repr of floats and containers is not reproduced. *)
Definition isspace (c : Ascii.ascii) : bool :=
  let n := Ascii.N_of_ascii c in
  ((9 <=? n) && (n <=? 13) || (28 <=? n) && (n <=? 32))%N.

Fixpoint lstrip (s : string) : string :=
  match s with
  | String c rest => if isspace c then lstrip rest else s
  | EmptyString => EmptyString
  end.

Definition strip (s : string) : string :=
  String.rev (lstrip (String.rev (lstrip s))).

Definition lower_char (c : Ascii.ascii) : Ascii.ascii :=
  let n := Ascii.N_of_ascii c in
  if ((65 <=? n) && (n <=? 90))%N then Ascii.ascii_of_N (n + 32) else c.

Definition upper_char (c : Ascii.ascii) : Ascii.ascii :=
  let n := Ascii.N_of_ascii c in
  if ((97 <=? n) && (n <=? 122))%N then Ascii.ascii_of_N (n - 32) else c.

Fixpoint map_chars (f : Ascii.ascii → Ascii.ascii) (s : string) : string :=
  match s with
  | String c rest => String (f c) (map_chars f rest)
  | EmptyString => EmptyString
  end.

Definition str (v : pyval) : string :=
  match v with
  | PNone => "None"
  | PBool true => "True"
  | PBool false => "False"
  | PInt n => pretty n
  | PStr s => s
  | _ => "?"
  end.

Definition ascii_builtins : Builtins := {|
  str_strip := strip;
  str_lower := map_chars lower_char;
  str_upper := map_chars upper_char;
  str_len := String.length;
  py_str := str;
|}.

Definition config : Config := {|
  LOGIN := "api";
  PASSWORD_SHA1 := "da39a3ee5e6b4b0d3255bfef95601890afd80709";
  IIKO_HOST := "https://iiko.example";
|}.

(** A server that answers the auth request with [auth], every other POST
    with [bye] and the directory request with [directory]. *)
Definition server (auth directory bye : requests.reply) : requests.world := {|
  requests.on_post url _ :=
    if String.eqb url "https://iiko.example/resto/api/auth" then auth else bye;
  requests.on_get _ _ := directory;
|}.

Definition token_response : requests.Response :=
  {| requests.status_code := 200; requests.text := "tok-1 ";
     requests.json := requests.NotJson; requests.xml := None |}.

Definition bye_response : requests.Response :=
  {| requests.status_code := 200; requests.text := "";
     requests.json := requests.NotJson; requests.xml := None |}.

Definition json_response (body : string) (v : pyval) : requests.Response :=
  {| requests.status_code := 200; requests.text := body;
     requests.json := requests.Parsed v; requests.xml := None |}.

Definition xml_response (body : string) (root : ElementTree.Element) : requests.Response :=
  {| requests.status_code := 200; requests.text := body;
     requests.json := requests.NotJson; requests.xml := Some root |}.

Definition garbage_response (body : string) : requests.Response :=
  {| requests.status_code := 200; requests.text := body;
     requests.json := requests.NotJson; requests.xml := None |}.

(** The server that accepts the login and the logout and answers the
    directory request with [r]. *)
Definition serving (r : requests.Response) : requests.world :=
  server (requests.Replied token_response) (requests.Replied r)
         (requests.Replied bye_response).

Definition leaf (tag text : string) : ElementTree.Element :=
  ElementTree.Elem tag (Some text) [].

Definition record (fields : list (string * pyval)) : pyval :=
  PDict (list_to_map fields).

(** A JSON string literal: the text between double quotes. *)
Definition q (s : string) : string :=
  String (Ascii.ascii_of_N 34) (s ++ String (Ascii.ascii_of_N 34) "").

(** Directory bodies. *)
Definition acme : pyval := record [("id", PStr "42"); ("name", PStr "  Acme Co  ")].
Definition beta : pyval := record [("id", PStr "7"); ("name", PStr "Beta LLC")].

Definition two_suppliers : requests.Response :=
  json_response
    ("[{" ++ q "id" ++ ": " ++ q "42" ++ ", " ++ q "name" ++ ": " ++ q "  Acme Co  " ++ "}, {"
          ++ q "id" ++ ": " ++ q "7" ++ ", " ++ q "name" ++ ": " ++ q "Beta LLC" ++ "}]")
    (PList [acme; beta]).

Definition json_object : requests.Response :=
  json_response ("{" ++ q "error" ++ ": " ++ q "busy" ++ "}")
             (record [("error", PStr "busy")]).

Definition json_numbers : requests.Response :=
  json_response "[1, 2]" (PList [PInt 1; PInt 2]).

(** A record with the name [main] looks for, letter for letter, and no
    id. *)
Definition without_id : pyval :=
  record [("code", PStr "17"); ("name", PStr "Лубчук Л.В. ФОП")].

Definition supplier_without_id : requests.Response :=
  json_response
    ("[{" ++ q "id" ++ ": " ++ q "7" ++ ", " ++ q "name" ++ ": " ++ q "Beta LLC" ++ "}, {"
          ++ q "code" ++ ": " ++ q "17" ++ ", " ++ q "name" ++ ": " ++ q "Лубчук Л.В. ФОП" ++ "}]")
    (PList [beta; without_id]).

Definition beta_employee : ElementTree.Element :=
  ElementTree.Elem "employee" None
    [leaf "id" "7"; leaf "name" "Beta LLC"; ElementTree.Elem "deleted" None []].

Definition employees_root : ElementTree.Element :=
  ElementTree.Elem "employees" None [beta_employee; leaf "total" "1"].

Definition employees_doc : requests.Response :=
  xml_response
    "<employees><employee><id>7</id><name>Beta LLC</name><deleted/></employee><total>1</total></employees>"
    employees_root.

Definition two_phones : ElementTree.Element :=
  ElementTree.Elem "employee" None
    [leaf "phone" "111"; leaf "name" "Beta LLC"; leaf "phone" "222"].

Definition two_phones_doc : requests.Response :=
  xml_response
    "<employee><phone>111</phone><name>Beta LLC</name><phone>222</phone></employee>"
    two_phones.

Definition html_root : ElementTree.Element :=
  ElementTree.Elem "html" None [leaf "body" "Maintenance"].

Definition html_doc : requests.Response :=
  xml_response "<html><body>Maintenance</body></html>" html_root.

Definition truncated_doc : requests.Response :=
  garbage_response "<employees><employee><id>7</id>".

(** Records the lookup or the table stumbles on, and a match whose id
    is the empty string. *)
Definition null_name : pyval := record [("id", PStr "9"); ("name", PNone)].

Definition empty_id : pyval :=
  record [("id", PStr ""); ("name", PStr "Лубчук Л.В. ФОП")].

Definition supplier_with_empty_id : requests.Response :=
  json_response
    ("[{" ++ q "id" ++ ": " ++ q "" ++ ", " ++ q "name" ++ ": " ++ q "Лубчук Л.В. ФОП" ++ "}]")
    (PList [empty_id]).

Definition supplier_with_null_name : requests.Response :=
  json_response
    ("[{" ++ q "id" ++ ": " ++ q "7" ++ ", " ++ q "name" ++ ": " ++ q "Beta LLC" ++ "}, {"
          ++ q "id" ++ ": " ++ q "9" ++ ", " ++ q "name" ++ ": null}]")
    (PList [beta; null_name]).

Definition nameless : pyval := record [("id", PStr "13"); ("code", PStr "K-13")].

Definition beta_with_phone : pyval :=
  record [("id", PStr "7"); ("name", PStr "Beta LLC"); ("phone", PStr "555")].

(** A name that is one lone surrogate, as [json.loads] reads the escape
    \ud800, and a directory that holds it. *)
Definition lone_surrogate : string :=
  String (Ascii.ascii_of_N 237) (String (Ascii.ascii_of_N 160)
    (String (Ascii.ascii_of_N 128) "")).

Definition unprintable : pyval :=
  record [("id", PStr "1"); ("name", PStr lone_surrogate)].

Definition supplier_with_surrogate : requests.Response :=
  json_response
    ("[{" ++ q "id" ++ ": " ++ q "1" ++ ", " ++ q "name" ++ ": " ++ q "\ud800" ++ "}]")
    (PList [unprintable]).

(** An XML directory whose one employee has the name [main] looks for
    and no id. *)
Definition employee_without_id : ElementTree.Element :=
  ElementTree.Elem "employee" None
    [leaf "name" "Лубчук Л.В. ФОП"; leaf "code" "17"].

Definition xml_without_id_root : ElementTree.Element :=
  ElementTree.Elem "employees" None [employee_without_id].

Definition xml_without_id : requests.Response :=
  xml_response
    "<employees><employee><name>Лубчук Л.В. ФОП</name><code>17</code></employee></employees>"
    xml_without_id_root.

(** A body of brackets nested a hundred thousand deep. *)
Definition deep_doc : requests.Response :=
  {| requests.status_code := 200;
     requests.text := str_mul "[" (100 * 1000) ++ str_mul "]" (100 * 1000);
     requests.json := requests.TooDeep; requests.xml := None |}.

Definition unavailable : requests.Response :=
  {| requests.status_code := 503; requests.text := "Service Unavailable";
     requests.json := requests.NotJson; requests.xml := None |}.

End Sample.

(** * Properties *)

(** ** Running statements *)

Lemma bind_run {A B} (m : M A) (f : A → M B) (t : trace) :
  (m ≫= f) t = match m t with
               | (Ok a, t') => f a t'
               | (Raise e, t') => (Raise e, t')
               end.
Proof. reflexivity. Qed.

Lemma session_get_replied w url params timeout r t :
  requests.on_get w url params = requests.Replied r →
  session_get w url params timeout t = (Ok r, t ++ [HttpGet url params timeout])%list.
Proof. intros Hw. unfold session_get. rewrite bind_run. simpl. by rewrite Hw. Qed.

Lemma session_get_noreply w url params timeout why t :
  requests.on_get w url params = requests.NoReply why →
  session_get w url params timeout t =
    (Raise (ConnectionError why), t ++ [HttpGet url params timeout])%list.
Proof. intros Hw. unfold session_get. rewrite bind_run. simpl. by rewrite Hw. Qed.

Lemma session_post_replied w url data timeout r t :
  requests.on_post w url data = requests.Replied r →
  session_post w url data timeout t = (Ok r, t ++ [HttpPost url data timeout])%list.
Proof. intros Hw. unfold session_post. rewrite bind_run. simpl. by rewrite Hw. Qed.

Lemma session_post_noreply w url data timeout why t :
  requests.on_post w url data = requests.NoReply why →
  session_post w url data timeout t =
    (Raise (ConnectionError why), t ++ [HttpPost url data timeout])%list.
Proof. intros Hw. unfold session_post. rewrite bind_run. simpl. by rewrite Hw. Qed.

Lemma raise_for_status_ok r t :
  ¬ (400 ≤ requests.status_code r < 600)%Z → raise_for_status r t = (Ok tt, t).
Proof. intros Hs. unfold raise_for_status. by rewrite bool_decide_eq_false_2. Qed.

Lemma raise_for_status_error r t :
  (400 ≤ requests.status_code r < 600)%Z →
  raise_for_status r t = (Raise (HTTPError (requests.status_code r)), t).
Proof. intros Hs. unfold raise_for_status. by rewrite bool_decide_eq_true_2. Qed.

Lemma ret_run {A} (a : A) (t : trace) : (mret a : M A) t = (Ok a, t).
Proof. reflexivity. Qed.

Lemma logging_run lvl msg t : logging lvl msg t = (Ok tt, t ++ [Log lvl msg])%list.
Proof. reflexivity. Qed.

Lemma print_ok line t :
  has_surrogate line = false → print line t = (Ok tt, t ++ [Stdout line])%list.
Proof. intros Hl. unfold print. by rewrite Hl. Qed.

Lemma print_refused line t :
  has_surrogate line = true → print line t = (Raise UnicodeEncodeError, t).
Proof. intros Hl. unfold print. by rewrite Hl. Qed.

Lemma lift_run {A} (r : result A) (t : trace) : lift r t = (r, t).
Proof. reflexivity. Qed.

(** Run the statement at the head of a goal one step at a time. *)
Ltac run :=
  repeat first
    [ rewrite bind_run | rewrite logging_run
    | rewrite ret_run | rewrite lift_run | progress cbv beta iota ].

(** ** Statements that make no POST request *)

Lemma quiet_ret {A} (a : A) : quiet (mret a).
Proof. intros t. exists []. by rewrite app_nil_r. Qed.

Lemma quiet_raise {A} (e : exn) : quiet (raise (A:=A) e).
Proof. intros t. exists []. by rewrite app_nil_r. Qed.

Lemma quiet_lift {A} (r : result A) : quiet (lift r).
Proof. intros t. exists []. by rewrite app_nil_r. Qed.

Lemma quiet_emit (ev : event) : is_post ev = false → quiet (emit ev).
Proof. intros Hev t. exists [ev]. split; [done|]. by constructor. Qed.

Lemma quiet_bind {A B} (m : M A) (f : A → M B) :
  quiet m → (∀ a, quiet (f a)) → quiet (m ≫= f).
Proof.
  intros Hm Hf t. rewrite bind_run.
  destruct (Hm t) as (es1 & Ht1 & Hes1).
  destruct (m t) as [[a|e] t1]; simpl in Ht1; subst t1.
  - destruct (Hf a (t ++ es1)%list) as (es2 & Ht2 & Hes2).
    exists (es1 ++ es2)%list. rewrite Ht2, app_assoc. split; [done|].
    by apply Forall_app.
  - by exists es1.
Qed.

Lemma quiet_try_except {A} (body : M A) cls (handler : exn → M A) :
  quiet body → (∀ e, quiet (handler e)) → quiet (try_except body cls handler).
Proof.
  intros Hm Hh t. unfold try_except.
  destruct (Hm t) as (es1 & Ht1 & Hes1).
  destruct (body t) as [[a|e] t1]; simpl in Ht1; subst t1.
  - by exists es1.
  - destruct (cls e); [|by exists es1].
    destruct (Hh e (t ++ es1)%list) as (es2 & Ht2 & Hes2).
    exists (es1 ++ es2)%list. rewrite Ht2, app_assoc. split; [done|].
    by apply Forall_app.
Qed.

Lemma quiet_for_each {A} (l : list A) (body : A → M unit) :
  (∀ x, quiet (body x)) → quiet (for_each l body).
Proof.
  intros Hb. induction l as [|x l IH]; simpl.
  - apply quiet_ret.
  - apply quiet_bind; [apply Hb|]. intros _. apply IH.
Qed.

Lemma quiet_if {A} (b : bool) (m1 m2 : M A) :
  quiet m1 → quiet m2 → quiet (if b then m1 else m2).
Proof. by destruct b. Qed.

Create HintDb quiet.
#[export] Hint Resolve quiet_ret quiet_raise quiet_lift quiet_bind
  quiet_try_except quiet_for_each quiet_if : quiet.

Section footprint.
Context `{Config} `{Builtins}.

Lemma quiet_logging lvl msg : quiet (logging lvl msg).
Proof. by apply quiet_emit. Qed.

Lemma quiet_print line : quiet (print line).
Proof.
  unfold print. destruct (has_surrogate line); [apply quiet_raise|].
  by apply quiet_emit.
Qed.

Lemma quiet_session_get w url params timeout :
  quiet (session_get w url params timeout).
Proof.
  unfold session_get. apply quiet_bind; [by apply quiet_emit|].
  intros _. destruct (requests.on_get w url params); auto with quiet.
Qed.

Lemma quiet_raise_for_status r : quiet (raise_for_status r).
Proof. unfold raise_for_status. auto with quiet. Qed.

Lemma quiet_suppliers_from_xml r : quiet (suppliers_from_xml r).
Proof.
  unfold suppliers_from_xml.
  apply quiet_bind; [apply quiet_logging|]. intros _.
  apply quiet_bind.
  { unfold ElementTree_fromstring. destruct (requests.xml r); auto with quiet. }
  intros root. repeat apply quiet_if; auto with quiet.
  apply quiet_bind; [apply quiet_logging|]. auto with quiet.
Qed.

Lemma quiet_fetch_all_suppliers w token : quiet (fetch_all_suppliers w token).
Proof.
  unfold fetch_all_suppliers.
  apply quiet_try_except.
  - apply quiet_bind; [apply quiet_session_get|]. intros r.
    apply quiet_bind; [apply quiet_raise_for_status|]. intros _.
    apply quiet_try_except.
    + apply quiet_bind; [|auto with quiet].
      unfold response_json. destruct (requests.json r); auto with quiet.
    + intros _. apply quiet_suppliers_from_xml.
  - intros e. apply quiet_bind; [apply quiet_logging|]. auto with quiet.
Qed.

Lemma quiet_pretty_print_suppliers suppliers :
  quiet (pretty_print_suppliers suppliers).
Proof.
  unfold pretty_print_suppliers. apply quiet_if; [apply quiet_print|].
  apply quiet_bind; [apply quiet_lift|]. intros rows.
  repeat (apply quiet_bind; [apply quiet_print|]; intros _).
  apply quiet_bind; [|intros _; apply quiet_print].
  apply quiet_for_each. intros row. apply quiet_print.
Qed.

End footprint.

(** ** The session: login and logout *)

Section session.
Context `{Config} `{Builtins}.

Lemma urls_distinct : auth_url ≠ logout_url.
Proof. unfold auth_url, logout_url. intros Heq. by apply (inj _) in Heq. Qed.

Lemma login_replied w r t :
  requests.on_post w auth_url credentials = requests.Replied r →
  status_ok r →
  login w t =
    (Ok (str_strip (requests.text r)),
     t ++ [HttpPost auth_url credentials 10;
           Log INFO (MsgAuthOk (str_strip (requests.text r)))])%list.
Proof.
  intros Hw Hs. unfold login, try_except, credentials in *.
  rewrite bind_run, (session_post_replied _ _ _ _ r) by done.
  rewrite bind_run, raise_for_status_ok by done.
  unfold logging, emit. rewrite bind_run. simpl.
  by rewrite <- app_assoc.
Qed.

Lemma login_noreply w why t :
  requests.on_post w auth_url credentials = requests.NoReply why →
  login w t =
    (Raise (SystemExit 1),
     t ++ [HttpPost auth_url credentials 10;
           Log ERROR (MsgAuthError (ConnectionError why))])%list.
Proof.
  intros Hw. unfold login, try_except, credentials in *.
  rewrite bind_run, (session_post_noreply _ _ _ _ why) by done.
  simpl. unfold logging, emit. rewrite bind_run. simpl.
  by rewrite <- app_assoc.
Qed.

Lemma login_http_error w r t :
  requests.on_post w auth_url credentials = requests.Replied r →
  ¬ status_ok r →
  login w t =
    (Raise (SystemExit 1),
     t ++ [HttpPost auth_url credentials 10;
           Log ERROR (MsgAuthError (HTTPError (requests.status_code r)))])%list.
Proof.
  intros Hw Hs. unfold login, try_except, credentials in *.
  rewrite bind_run, (session_post_replied _ _ _ _ r) by done.
  rewrite bind_run, raise_for_status_error.
  - simpl. unfold logging, emit. rewrite bind_run. simpl.
    by rewrite <- app_assoc.
  - unfold status_ok in Hs. by apply dec_stable.
Qed.

(** [logout] never raises, and makes exactly one request. *)
Lemma logout_run w token t :
  ∃ lvl msg,
    logout w token t =
      (Ok tt, t ++ [HttpPost logout_url (key_of token) 10; Log lvl msg])%list.
Proof.
  unfold logout, try_except, key_of.
  destruct (requests.on_post w logout_url [("key", token)]) as [why|r] eqn:Hw.
  - exists WARNING, (MsgLogoutError (ConnectionError why)).
    rewrite bind_run, (session_post_noreply _ _ _ _ why) by done.
    simpl. unfold logging, emit. by rewrite <- app_assoc.
  - rewrite bind_run, (session_post_replied _ _ _ _ r) by done.
    case_bool_decide.
    + exists INFO, MsgLogoutOk. unfold logging, emit. by rewrite <- app_assoc.
    + exists WARNING, (MsgLogoutStatus (requests.status_code r)).
      unfold logging, emit. by rewrite <- app_assoc.
Qed.

Lemma try_finally_logout {A} (body : M A) w token t :
  ∃ lvl msg,
    try_finally body (logout w token) t =
      ((body t).1,
       (body t).2 ++ [HttpPost logout_url (key_of token) 10; Log lvl msg])%list.
Proof.
  unfold try_finally. destruct (body t) as [r t1]. simpl.
  destruct (logout_run w token t1) as (lvl & msg & ->). by exists lvl, msg.
Qed.

Lemma logout_calls_app t1 t2 :
  logout_calls (t1 ++ t2)%list = (logout_calls t1 ++ logout_calls t2)%list.
Proof. apply omap_app. Qed.

Lemma logout_calls_quiet es :
  Forall (λ ev, is_post ev = false) es → logout_calls es = [].
Proof.
  induction 1 as [|ev es Hev _ IH]; [done|].
  change (ev :: es) with ([ev] ++ es)%list.
  rewrite logout_calls_app, IH, app_nil_r. by destruct ev.
Qed.

End session.

(** ** The directory request and its normalisation *)

Section normalisation.
Context `{Config} `{Builtins}.

Lemma text_or_empty_default child :
  text_or_empty child = default "" (ElementTree.text child).
Proof.
  unfold text_or_empty. destruct (ElementTree.text child) as [s|]; [|done].
  simpl. destruct (String.eqb_spec s ""); by subst.
Qed.

(** The dict built by the inner loop, read at any key. *)
Lemma emp_data_lookup emp k :
  emp_data emp !! k =
    (λ c, PStr (default "" (ElementTree.text c))) <$>
      last (filter (λ c, ElementTree.tag c = k) (ElementTree.children emp)).
Proof.
  unfold emp_data.
  induction (ElementTree.children emp) as [|child l IH] using rev_ind.
  - simpl. apply lookup_empty.
  - rewrite foldl_snoc, filter_app.
    destruct (decide (ElementTree.tag child = k)) as [Heq|Hne].
    + rewrite filter_cons_True, filter_nil, last_snoc by done.
      simpl. rewrite Heq, lookup_insert_eq. by rewrite text_or_empty_default.
    + rewrite filter_cons_False, filter_nil, app_nil_r by done.
      by rewrite lookup_insert_ne.
Qed.

Lemma emp_data_record_of emp : record_of emp (PDict (emp_data emp)).
Proof. exists (emp_data emp). split; [done|]. apply emp_data_lookup. Qed.

Lemma suppliers_from_xml_malformed r t :
  requests.xml r = None →
  suppliers_from_xml r t = (Raise ParseError, t ++ [Log WARNING MsgXmlFallback])%list.
Proof.
  intros Hx. unfold suppliers_from_xml, ElementTree_fromstring.
  rewrite Hx. by run.
Qed.

Lemma suppliers_from_xml_employees r root t :
  requests.xml r = Some root →
  ElementTree.tag root = "employees" →
  suppliers_from_xml r t =
    (Ok (map (λ emp, PDict (emp_data emp)) (ElementTree.findall "employee" root)),
     t ++ [Log WARNING MsgXmlFallback])%list.
Proof.
  intros Hx Htag. unfold suppliers_from_xml, ElementTree_fromstring.
  rewrite Hx. run. by rewrite Htag.
Qed.

Lemma suppliers_from_xml_employee r root t :
  requests.xml r = Some root →
  ElementTree.tag root = "employee" →
  suppliers_from_xml r t =
    (Ok [PDict (emp_data root)], t ++ [Log WARNING MsgXmlFallback])%list.
Proof.
  intros Hx Htag. unfold suppliers_from_xml, ElementTree_fromstring.
  rewrite Hx. run. by rewrite Htag.
Qed.

Lemma suppliers_from_xml_unknown r root t :
  requests.xml r = Some root →
  ElementTree.tag root ≠ "employees" →
  ElementTree.tag root ≠ "employee" →
  suppliers_from_xml r t =
    (Ok [], t ++ [Log WARNING MsgXmlFallback;
                  Log ERROR (MsgUnknownRoot (ElementTree.tag root))])%list.
Proof.
  intros Hx Hn1 Hn2. unfold suppliers_from_xml, ElementTree_fromstring.
  rewrite Hx. run.
  destruct (String.eqb_spec (ElementTree.tag root) "employees"); [done|].
  destruct (String.eqb_spec (ElementTree.tag root) "employee"); [done|].
  run. by rewrite <- app_assoc.
Qed.

(** A body that is not JSON goes through the XML branch, whose outcome
    the outer handler leaves as it is. *)
Lemma fetch_not_json w token r t :
  requests.on_get w suppliers_url (key_of token) = requests.Replied r →
  status_ok r →
  requests.json r = requests.NotJson →
  fetch_all_suppliers w token t =
    suppliers_from_xml r (t ++ [HttpGet suppliers_url (key_of token) 10])%list.
Proof.
  intros Hw Hs Hj. unfold fetch_all_suppliers, key_of in *.
  unfold try_except at 1.
  rewrite bind_run, (session_get_replied _ _ _ _ r) by done.
  rewrite bind_run, raise_for_status_ok by done.
  unfold try_except, response_json. rewrite Hj, bind_run. simpl.
  destruct (requests.xml r) as [root|] eqn:Hx.
  - destruct (decide (ElementTree.tag root = "employees")) as [He|Hne].
    { by rewrite (suppliers_from_xml_employees r root). }
    destruct (decide (ElementTree.tag root = "employee")) as [He|Hne'].
    { by rewrite (suppliers_from_xml_employee r root). }
    by rewrite (suppliers_from_xml_unknown r root).
  - by rewrite suppliers_from_xml_malformed.
Qed.

Lemma fetch_json w token r v t :
  requests.on_get w suppliers_url (key_of token) = requests.Replied r →
  status_ok r →
  requests.json r = requests.Parsed v →
  fetch_all_suppliers w token t =
    (Ok (match v with PList l => l | _ => [] end),
     t ++ [HttpGet suppliers_url (key_of token) 10])%list.
Proof.
  intros Hw Hs Hj. unfold fetch_all_suppliers, try_except, key_of in *.
  rewrite bind_run, (session_get_replied _ _ _ _ r) by done.
  rewrite bind_run, raise_for_status_ok by done.
  unfold response_json. by rewrite Hj.
Qed.

Lemma fetch_failed w token exc t :
  request_failure (requests.on_get w suppliers_url (key_of token)) = Some exc →
  fetch_all_suppliers w token t =
    (Ok [], t ++ [HttpGet suppliers_url (key_of token) 10;
                  Log ERROR (MsgFetchError exc)])%list.
Proof.
  intros Hf. unfold fetch_all_suppliers, key_of in *. unfold try_except at 1.
  destruct (requests.on_get w suppliers_url [("key", token)]) as [why|r] eqn:Hw;
    simpl in Hf.
  - injection Hf as <-.
    rewrite bind_run, (session_get_noreply _ _ _ _ why) by done.
    simpl. unfold logging, emit. rewrite bind_run. simpl. by rewrite <- app_assoc.
  - case_bool_decide as Hs; [|done]. injection Hf as <-.
    rewrite bind_run, (session_get_replied _ _ _ _ r) by done.
    rewrite bind_run, raise_for_status_error by done.
    simpl. unfold logging, emit. rewrite bind_run. simpl. by rewrite <- app_assoc.
Qed.

(** A body nested too deep: [RecursionError] is no [ValueError] and no
    [RequestException]. *)
Lemma fetch_too_deep w token r t :
  requests.on_get w suppliers_url (key_of token) = requests.Replied r →
  status_ok r →
  requests.json r = requests.TooDeep →
  fetch_all_suppliers w token t =
    (Raise RecursionError, t ++ [HttpGet suppliers_url (key_of token) 10])%list.
Proof.
  intros Hw Hs Hj. unfold fetch_all_suppliers, try_except, key_of in *.
  rewrite bind_run, (session_get_replied _ _ _ _ r) by done.
  rewrite bind_run, raise_for_status_ok by done.
  unfold response_json. by rewrite Hj.
Qed.

(** A body that is neither JSON nor well-formed XML: [ParseError] leaves
    the function, past both handlers. *)
Lemma fetch_malformed w token r t :
  requests.on_get w suppliers_url (key_of token) = requests.Replied r →
  status_ok r →
  requests.json r = requests.NotJson →
  requests.xml r = None →
  fetch_all_suppliers w token t =
    (Raise ParseError,
     t ++ [HttpGet suppliers_url (key_of token) 10; Log WARNING MsgXmlFallback])%list.
Proof.
  intros Hw Hs Hj Hx.
  rewrite (fetch_not_json w token r), suppliers_from_xml_malformed by done.
  by rewrite <- app_assoc.
Qed.

End normalisation.

(** ** The table and the lookup *)

Section lookup.
Context `{Config} `{Builtins}.

Lemma is_record_is_dict v : is_record v → is_dict v.
Proof. by destruct v. Qed.

Lemma table_row_dict d : ∃ row, table_row (PDict d) = Ok row.
Proof. eexists. unfold table_row, columns. reflexivity. Qed.

Lemma table_row_other v : ¬ is_dict v → table_row v = Raise (AttributeError "get").
Proof. intros Hv. destruct v; try reflexivity. by destruct Hv. Qed.

Lemma mapM_result_cons {A B} (f : A → result B) (x : A) (l : list A) :
  mapM f (x :: l) = y ← f x; k ← mapM f l; mret (y :: k).
Proof. reflexivity. Qed.

Lemma table_rows_dicts suppliers :
  Forall is_dict suppliers → ∃ rows, mapM table_row suppliers = Ok rows.
Proof.
  induction 1 as [|v l Hv _ [rows IH]]; [by exists []|].
  destruct v; try done. destruct (table_row_dict d) as [row Hrow].
  exists (row :: rows). by rewrite mapM_result_cons, Hrow, IH.
Qed.

Lemma table_rows_other suppliers :
  ¬ Forall is_dict suppliers →
  mapM table_row suppliers = Raise (AttributeError "get").
Proof.
  induction suppliers as [|v l IH]; intros Hl.
  - destruct Hl. constructor.
  - rewrite mapM_result_cons.
    destruct (decide (is_dict v)) as [Hv|Hv].
    + destruct v; try done. destruct (table_row_dict d) as [row ->].
      rewrite IH; [done|].
      intros Hl'. apply Hl. by constructor.
    + by rewrite table_row_other.
Qed.

(** Printing a sequence of lines: the console takes them up to the
    first it cannot encode. *)
Lemma print_lines lines t :
  for_each lines print t = (print_outcome lines, t ++ map Stdout (accepted lines))%list.
Proof.
  revert t. induction lines as [|line lines IH]; intros t.
  - unfold print_outcome. simpl. by rewrite app_nil_r.
  - cbn [for_each accepted]. rewrite bind_run. unfold print_outcome. cbn [forallb].
    destruct (has_surrogate line) eqn:Hline.
    + rewrite print_refused by done. simpl. by rewrite app_nil_r.
    + rewrite print_ok, IH by done. cbn [negb andb map].
      unfold print_outcome. by rewrite <- app_assoc.
Qed.

Lemma for_each_map {A B} (f : A → B) (l : list A) (body : B → M unit) t :
  for_each (map f l) body t = for_each l (λ x, body (f x)) t.
Proof.
  revert t. induction l as [|x l IH]; intros t; [done|].
  cbn [map for_each]. rewrite !bind_run.
  destruct (body (f x) t) as [[[]|e] t']; [apply IH | done].
Qed.

Lemma for_each_snoc {A} (l : list A) (x : A) (body : A → M unit) t :
  for_each (l ++ [x]) body t = (_ ← for_each l body; body x) t.
Proof.
  revert t. induction l as [|y l IH]; intros t.
  - cbn [app for_each]. rewrite !bind_run, ret_run.
    by destruct (body x t) as [[[]|e] t'].
  - cbn [app for_each]. rewrite !bind_run.
    destruct (body y t) as [[[]|e] t']; [|done].
    rewrite IH. by rewrite bind_run.
Qed.

Lemma accepted_all lines :
  Forall printable lines → accepted lines = lines ∧ print_outcome lines = Ok tt.
Proof.
  unfold print_outcome.
  induction 1 as [|line lines Hline _ [IH1 IH2]]; [done|].
  unfold printable in Hline. cbn [accepted forallb]. rewrite Hline. cbn [negb andb].
  by rewrite IH1.
Qed.

Lemma print_outcome_refused lines :
  ¬ Forall printable lines → print_outcome lines = Raise UnicodeEncodeError.
Proof.
  intros Hlines. unfold print_outcome.
  destruct (forallb _ lines) eqn:Hall; [|done]. destruct Hlines.
  apply Forall_forall. intros line Hin%list_elem_of_In.
  apply (proj1 (forallb_forall _ _) Hall) in Hin.
  unfold printable. by destruct (has_surrogate line).
Qed.

Lemma print_outcome_cases lines :
  print_outcome lines = Ok tt ∨ print_outcome lines = Raise UnicodeEncodeError.
Proof. unfold print_outcome. destruct (forallb _ lines); auto. Qed.

Lemma accepted_Forall (P : string → Prop) lines :
  Forall P lines → Forall P (accepted lines).
Proof.
  induction 1 as [|line lines Hline _ IH]; [done|].
  cbn [accepted]. destruct (has_surrogate line); by constructor.
Qed.

(** Over a list that has rows, [pretty_print_suppliers] prints the lines
    of the table one after the other. *)
Lemma pretty_print_rows suppliers rows t :
  suppliers ≠ [] →
  mapM table_row suppliers = Ok rows →
  pretty_print_suppliers suppliers t = for_each (table_lines rows) print t.
Proof.
  intros Hne Hrows. unfold pretty_print_suppliers.
  rewrite bool_decide_eq_false_2 by done. rewrite Hrows. run. cbv zeta.
  transitivity
    ((_ ← print (table_separator (col_widths rows));
      _ ← print (table_line (col_widths rows) (map str_upper columns));
      _ ← print (table_separator (col_widths rows));
      _ ← for_each rows (λ row, print (table_line (col_widths rows) row));
      print (table_separator (col_widths rows))) t); [reflexivity|].
  unfold table_lines. cbn [app for_each]. rewrite !bind_run.
  destruct (print _ t) as [[[]|e] t1]; [|done]. rewrite !bind_run.
  destruct (print _ t1) as [[[]|e] t2]; [|done]. rewrite !bind_run.
  destruct (print _ t2) as [[[]|e] t3]; [|done].
  by rewrite for_each_snoc, !bind_run, for_each_map.
Qed.

(** [pretty_print_suppliers] prints its text line by line. *)
Lemma pretty_print_console suppliers t :
  pretty_print_suppliers suppliers t =
    match table_text suppliers with
    | Ok lines => (print_outcome lines, t ++ map Stdout (accepted lines))%list
    | Raise e => (Raise e, t)
    end.
Proof.
  unfold table_text. case_bool_decide as Hnil; [by subst|].
  destruct (mapM table_row suppliers) as [rows|e] eqn:Hrows.
  - rewrite (pretty_print_rows suppliers rows) by done. apply print_lines.
  - unfold pretty_print_suppliers.
    rewrite bool_decide_eq_false_2 by done. by rewrite Hrows.
Qed.

Lemma pretty_print_empty t :
  pretty_print_suppliers [] t = (Ok tt, t ++ [Stdout "Список поставщиков пуст!"])%list.
Proof. reflexivity. Qed.

Lemma table_text_dicts suppliers :
  Forall is_dict suppliers → ∃ lines, table_text suppliers = Ok lines.
Proof.
  intros Hl. unfold table_text. case_bool_decide; [by eexists|].
  destruct (table_rows_dicts suppliers Hl) as [rows ->]. by eexists.
Qed.

Lemma table_text_other suppliers :
  ¬ Forall is_dict suppliers →
  table_text suppliers = Raise (AttributeError "get").
Proof.
  intros Hl. unfold table_text. case_bool_decide as Hnil.
  { destruct Hl. subst. constructor. }
  by rewrite table_rows_other.
Qed.

Lemma pretty_print_other suppliers t :
  ¬ Forall is_dict suppliers →
  pretty_print_suppliers suppliers t = (Raise (AttributeError "get"), t).
Proof. intros Hl. by rewrite pretty_print_console, table_text_other. Qed.

(** One step of the scan over a record. *)
Lemma fetch_supplier_id_cons sup rest supplier_name :
  is_record sup →
  fetch_supplier_id (sup :: rest) supplier_name =
    if decide (name_matches sup supplier_name)
    then Ok (record_id sup)
    else fetch_supplier_id rest supplier_name.
Proof.
  intros Hsup. destruct sup as [| | | | | |d]; try done.
  assert (py_get (PDict d) "name" (PStr "") = Ok (PStr (record_name (PDict d))))
    as Hname.
  { simpl in *. by destruct (d !! "name") as [[]|]. }
  cbn [fetch_supplier_id]. rewrite Hname.
  cbn [mbind result_bind py_strip py_lower py_eq_str].
  unfold record_id, py_get.
  destruct (String.eqb_spec (str_lower (str_strip (record_name (PDict d))))
                            (str_lower supplier_name));
    by case_decide.
Qed.

Lemma fetch_supplier_id_no_match suppliers supplier_name :
  Forall (λ r, is_record r ∧ ¬ name_matches r supplier_name) suppliers →
  fetch_supplier_id suppliers supplier_name = Ok PNone.
Proof.
  induction 1 as [|r l [Hr Hn] _ IH]; [done|].
  rewrite fetch_supplier_id_cons by done. by case_decide.
Qed.

Lemma fetch_supplier_id_first_match pre r post supplier_name :
  Forall (λ r, is_record r ∧ ¬ name_matches r supplier_name) pre →
  is_record r →
  name_matches r supplier_name →
  fetch_supplier_id (pre ++ r :: post) supplier_name = Ok (record_id r).
Proof.
  intros Hpre Hr Hm. induction Hpre as [|r' l [Hr' Hn] _ IH]; simpl app.
  - rewrite fetch_supplier_id_cons by done. by case_decide.
  - rewrite fetch_supplier_id_cons by done. by case_decide.
Qed.

(** Every outcome of the lookup. *)
Lemma fetch_supplier_id_outcome suppliers supplier_name :
  (∃ v, fetch_supplier_id suppliers supplier_name = Ok v) ∨
  (∃ attr, fetch_supplier_id suppliers supplier_name = Raise (AttributeError attr)).
Proof.
  induction suppliers as [|sup rest IH]; [left; by exists PNone|].
  cbn [fetch_supplier_id].
  destruct sup as [| | | | | |d]; try (right; by eexists).
  cbn [py_get mbind result_bind].
  destruct (default (PStr "") (d !! "name")) as [| | | |s| |];
    try (right; by eexists).
  cbn [py_strip py_lower mbind result_bind py_eq_str].
  destruct (String.eqb _ _); [left; by eexists | exact IH].
Qed.

Lemma fetch_supplier_id_records suppliers supplier_name :
  Forall is_record suppliers →
  ∃ v, fetch_supplier_id suppliers supplier_name = Ok v.
Proof.
  induction 1 as [|r l Hr _ [v IH]]; [by exists PNone|].
  rewrite fetch_supplier_id_cons by done. case_decide; eauto.
Qed.

End lookup.

(** ** The entry point *)

Section entry.
Context `{Config} `{Builtins}.

Lemma run_eq w : run w = (exit_status (main w []).1, (main w []).2).
Proof. unfold run. by destruct (main w []). Qed.

Lemma main_authenticated w r :
  requests.on_post w auth_url credentials = requests.Replied r →
  status_ok r →
  let token := str_strip (requests.text r) in
  let t1 := [HttpPost auth_url credentials 10; Log INFO (MsgAuthOk token)] in
  ∃ lvl msg,
    main w [] =
      ((main_body w token t1).1,
       (main_body w token t1).2 ++
         [HttpPost logout_url (key_of token) 10; Log lvl msg])%list.
Proof.
  intros Hw Hs token t1. unfold main.
  rewrite bind_run, (login_replied w r) by done. simpl app.
  apply try_finally_logout.
Qed.

Lemma main_auth_failed w exc :
  request_failure (requests.on_post w auth_url credentials) = Some exc →
  main w [] =
    (Raise (SystemExit 1),
     [HttpPost auth_url credentials 10; Log ERROR (MsgAuthError exc)]).
Proof.
  intros Hf. unfold main. rewrite bind_run.
  destruct (requests.on_post w auth_url credentials) as [why|r] eqn:Hw;
    simpl in Hf.
  - injection Hf as <-. by rewrite (login_noreply w why).
  - case_bool_decide as Hs; [|done]. injection Hf as <-.
    rewrite (login_http_error w r); [done..|]. by intros Hok.
Qed.

Lemma main_body_fetch_raises w token t e t2 :
  fetch_all_suppliers w token t = (Raise e, t2) →
  main_body w token t = (Raise e, t2).
Proof. intros Hf. unfold main_body. by rewrite bind_run, Hf. Qed.

(** The [try] block once the directory is there: the table, then the
    lookup, then the report. *)
Lemma main_body_run w token t suppliers t2 :
  fetch_all_suppliers w token t = (Ok suppliers, t2) →
  main_body w token t =
    match table_text suppliers with
    | Raise e => (Raise e, t2)
    | Ok lines =>
        match print_outcome lines with
        | Raise e => (Raise e, t2 ++ map Stdout (accepted lines))%list
        | Ok _ =>
            match fetch_supplier_id suppliers search_name with
            | Raise e => (Raise e, t2 ++ map Stdout (accepted lines))%list
            | Ok found_id =>
                (Ok tt, t2 ++ map Stdout (accepted lines) ++ [report found_id])%list
            end
        end
    end.
Proof.
  intros Hf. unfold main_body.
  rewrite bind_run, Hf, bind_run, pretty_print_console.
  destruct (table_text suppliers) as [lines|e]; [|done].
  destruct (print_outcome lines) as [[]|e]; [|done]. run.
  destruct (fetch_supplier_id suppliers search_name) as [found_id|e]; [|done].
  unfold report. destruct (truthy found_id); run; by rewrite <- app_assoc.
Qed.

Lemma main_body_print_raises w token t suppliers t2 :
  fetch_all_suppliers w token t = (Ok suppliers, t2) →
  ¬ Forall is_dict suppliers →
  main_body w token t = (Raise (AttributeError "get"), t2).
Proof.
  intros Hf Hl. by rewrite (main_body_run w token t suppliers t2), table_text_other.
Qed.

Lemma main_body_print_refused w token t suppliers t2 lines :
  fetch_all_suppliers w token t = (Ok suppliers, t2) →
  table_text suppliers = Ok lines →
  ¬ Forall printable lines →
  main_body w token t =
    (Raise UnicodeEncodeError, t2 ++ map Stdout (accepted lines))%list.
Proof.
  intros Hf Htext Hlines.
  by rewrite (main_body_run w token t suppliers t2), Htext, print_outcome_refused.
Qed.

Lemma main_body_lookup w token t suppliers t2 lines found_id :
  fetch_all_suppliers w token t = (Ok suppliers, t2) →
  table_text suppliers = Ok lines →
  Forall printable lines →
  fetch_supplier_id suppliers search_name = Ok found_id →
  main_body w token t = (Ok tt, t2 ++ map Stdout lines ++ [report found_id])%list.
Proof.
  intros Hf Htext Hlines Hid.
  destruct (accepted_all lines Hlines) as [Hacc Hout].
  by rewrite (main_body_run w token t suppliers t2), Htext, Hout, Hid, Hacc.
Qed.

Lemma main_body_lookup_raises w token t suppliers t2 lines e :
  fetch_all_suppliers w token t = (Ok suppliers, t2) →
  table_text suppliers = Ok lines →
  Forall printable lines →
  fetch_supplier_id suppliers search_name = Raise e →
  main_body w token t = (Raise e, t2 ++ map Stdout lines)%list.
Proof.
  intros Hf Htext Hlines Hid.
  destruct (accepted_all lines Hlines) as [Hacc Hout].
  by rewrite (main_body_run w token t suppliers t2), Htext, Hout, Hid, Hacc.
Qed.

Lemma main_body_empty w token t t2 :
  fetch_all_suppliers w token t = (Ok [], t2) →
  main_body w token t =
    (Ok tt, t2 ++ [Stdout "Список поставщиков пуст!";
                   Log WARNING (MsgNotFound search_name)])%list.
Proof. intros Hf. by rewrite (main_body_run w token t [] t2). Qed.

Lemma quiet_main_body w token : quiet (main_body w token).
Proof.
  unfold main_body.
  apply quiet_bind; [apply quiet_fetch_all_suppliers|]. intros suppliers.
  apply quiet_bind; [apply quiet_pretty_print_suppliers|]. intros _.
  apply quiet_bind; [apply quiet_lift|]. intros found_id.
  apply quiet_if; apply quiet_logging.
Qed.

(** One logout request in every run that got its token. *)
Lemma run_logout_calls w r :
  requests.on_post w auth_url credentials = requests.Replied r →
  status_ok r →
  logout_calls (run w).2 = [key_of (str_strip (requests.text r))].
Proof.
  intros Hw Hs. rewrite run_eq. cbn [snd].
  destruct (main_authenticated w r Hw Hs) as (lvl & msg & ->). cbn [snd].
  destruct (quiet_main_body w (str_strip (requests.text r))
              [HttpPost auth_url credentials 10;
               Log INFO (MsgAuthOk (str_strip (requests.text r)))])
    as (es & -> & Hes).
  rewrite !logout_calls_app, (logout_calls_quiet es Hes).
  unfold logout_calls. simpl.
  rewrite bool_decide_eq_false_2 by apply urls_distinct.
  by rewrite bool_decide_eq_true_2.
Qed.

(** The records of an XML body are dicts of strs. *)
Lemma emp_data_is_record emp : is_record (PDict (emp_data emp)).
Proof.
  simpl. rewrite emp_data_lookup.
  by destruct (last (filter _ _)).
Qed.

End entry.

(** * The claims *)

(** ** Normalisation of the directory body *)

Section normalisation_claims.
Context `{Config} `{Builtins}.

(** C4. A body that parses as a JSON array comes back as the list of its
    elements, unchanged and in order; a body that parses as any other
    JSON value comes back as the empty list. Neither case raises or
    logs: the trace only gains the GET request. *)
Theorem json_body_verbatim w token r v t :
  requests.on_get w suppliers_url (key_of token) = requests.Replied r →
  status_ok r →
  requests.json r = requests.Parsed v →
  (∀ l, v = PList l →
     fetch_all_suppliers w token t =
       (Ok l, t ++ [HttpGet suppliers_url (key_of token) 10])%list) ∧
  ((∀ l, v ≠ PList l) →
     fetch_all_suppliers w token t =
       (Ok [], t ++ [HttpGet suppliers_url (key_of token) 10])%list).
Proof.
  intros Hw Hs Hj. rewrite (fetch_json w token r v) by done. split.
  - by intros l ->.
  - intros Hv. destruct v; try done. by destruct (Hv l).
Qed.

(** C6. A well-formed XML body whose root is neither [employees] nor
    [employee] is logged as an error and gives the empty list; nothing
    is raised. *)
Theorem unknown_root_is_empty w token r root t :
  requests.on_get w suppliers_url (key_of token) = requests.Replied r →
  status_ok r →
  requests.json r = requests.NotJson →
  requests.xml r = Some root →
  ElementTree.tag root ≠ "employees" →
  ElementTree.tag root ≠ "employee" →
  fetch_all_suppliers w token t =
    (Ok [], t ++ [HttpGet suppliers_url (key_of token) 10;
                  Log WARNING MsgXmlFallback;
                  Log ERROR (MsgUnknownRoot (ElementTree.tag root))])%list.
Proof.
  intros Hw Hs Hj Hx Hn1 Hn2.
  rewrite (fetch_not_json w token r), (suppliers_from_xml_unknown r root) by done.
  by rewrite <- app_assoc.
Qed.

(** C9. When several immediate children of an [employee] element carry
    the same tag, the record holds under that tag the text of the last
    of them in document order, and only that: the tag of an earlier one
    reads the text of the last one, its own text is overwritten. *)
Theorem duplicate_tag_last_wins emp pre c1 mid c2 post :
  ElementTree.children emp = (pre ++ c1 :: mid ++ c2 :: post)%list →
  ElementTree.tag c1 = ElementTree.tag c2 →
  Forall (λ c, ElementTree.tag c ≠ ElementTree.tag c2) post →
  emp_data emp !! ElementTree.tag c2 =
    Some (PStr (default "" (ElementTree.text c2))) ∧
  emp_data emp !! ElementTree.tag c1 =
    Some (PStr (default "" (ElementTree.text c2))).
Proof.
  intros Hch Htag Hpost. rewrite Htag.
  assert (emp_data emp !! ElementTree.tag c2 =
            Some (PStr (default "" (ElementTree.text c2)))) as Hlast; [|done].
  rewrite emp_data_lookup, Hch.
  replace (pre ++ c1 :: mid ++ c2 :: post)%list
    with ((pre ++ c1 :: mid) ++ [c2] ++ post)%list
    by (by rewrite <- app_assoc).
  rewrite filter_app, (filter_app _ [c2]), (filter_cons_True _ c2), filter_nil by done.
  replace (filter (λ c, ElementTree.tag c = ElementTree.tag c2) post)
    with (@nil ElementTree.Element).
  - by rewrite app_nil_r, last_snoc.
  - symmetry. clear Hch. induction Hpost as [|c l Hc _ IH]; [done|].
    by rewrite filter_cons_False.
Qed.

(** C5, as amended. Under an [employees] root there is one record per
    immediate [employee] child, in document order, and under a bare
    [employee] root exactly one; each record maps a tag to the text of
    the last immediate child with that tag (the empty string when that
    child has no text), and has no other field. *)
Theorem xml_body_records w token r root t :
  requests.on_get w suppliers_url (key_of token) = requests.Replied r →
  status_ok r →
  requests.json r = requests.NotJson →
  requests.xml r = Some root →
  (ElementTree.tag root = "employees" →
   ∃ records,
     fetch_all_suppliers w token t =
       (Ok records, t ++ [HttpGet suppliers_url (key_of token) 10;
                          Log WARNING MsgXmlFallback])%list ∧
     Forall2 record_of
       (filter (λ c, ElementTree.tag c = "employee") (ElementTree.children root))
       records) ∧
  (ElementTree.tag root = "employee" →
   ∃ rec,
     fetch_all_suppliers w token t =
       (Ok [rec], t ++ [HttpGet suppliers_url (key_of token) 10;
                        Log WARNING MsgXmlFallback])%list ∧
     record_of root rec).
Proof.
  intros Hw Hs Hj Hx. rewrite (fetch_not_json w token r) by done. split.
  - intros Htag. rewrite (suppliers_from_xml_employees r root) by done.
    eexists. split; [by rewrite <- app_assoc|].
    unfold ElementTree.findall.
    induction (filter _ (ElementTree.children root)) as [|emp l IH]; simpl.
    + constructor.
    + constructor; [apply emp_data_record_of | apply IH].
  - intros Htag. rewrite (suppliers_from_xml_employee r root) by done.
    eexists. split; [by rewrite <- app_assoc|]. apply emp_data_record_of.
Qed.

End normalisation_claims.

(** ** The lookup *)

Section lookup_claims.
Context `{Config} `{Builtins}.

(** C2, as amended. Over records (dicts whose name, when present, is a
    str) the lookup returns the id field of the first record, in sequence
    order, whose name stripped and lower-cased equals the query
    lower-cased (the query is not stripped), [None] when that record has
    no id; it returns [None] when no record matches, the empty list
    included; it never raises. *)
Theorem fetch_supplier_id_first_match_wins suppliers supplier_name :
  Forall is_record suppliers →
  (∀ pre r post,
     suppliers = (pre ++ r :: post)%list →
     Forall (λ x, ¬ name_matches x supplier_name) pre →
     name_matches r supplier_name →
     fetch_supplier_id suppliers supplier_name = Ok (record_id r)) ∧
  (Forall (λ x, ¬ name_matches x supplier_name) suppliers →
   fetch_supplier_id suppliers supplier_name = Ok PNone).
Proof.
  intros Hrec. split.
  - intros pre r post -> Hpre Hm.
    apply Forall_app in Hrec as [Hrec1 Hrec2].
    apply Forall_cons in Hrec2 as [Hr _].
    apply fetch_supplier_id_first_match; [|done..].
    apply Forall_and. by split.
  - intros Hno. apply fetch_supplier_id_no_match.
    apply Forall_and. by split.
Qed.

(** C10. When the first record whose name matches the query has no [id]
    field, the lookup returns [None], which is also its answer over any
    records none of which matches; and [main], given such a directory
    (from a JSON or an XML body) whose table the console takes, logs
    that the supplier was not found and ends with status 0. *)
Theorem missing_id_reports_not_found pre d post :
  Forall (λ x, is_record x ∧ ¬ name_matches x search_name) pre →
  is_record (PDict d) →
  name_matches (PDict d) search_name →
  d !! "id" = None →
  fetch_supplier_id (pre ++ PDict d :: post) search_name = Ok PNone ∧
  (∀ others,
     Forall (λ x, is_record x ∧ ¬ name_matches x search_name) others →
     fetch_supplier_id others search_name =
       fetch_supplier_id (pre ++ PDict d :: post) search_name) ∧
  (∀ w r t2 lines,
     requests.on_post w auth_url credentials = requests.Replied r →
     status_ok r →
     fetch_all_suppliers w (str_strip (requests.text r))
       [HttpPost auth_url credentials 10;
        Log INFO (MsgAuthOk (str_strip (requests.text r)))] =
       (Ok (pre ++ PDict d :: post)%list, t2) →
     table_text (pre ++ PDict d :: post)%list = Ok lines →
     Forall printable lines →
     ∃ lvl msg,
       run w =
         (0%Z,
          t2 ++ map Stdout lines ++
          [Log WARNING (MsgNotFound search_name);
           HttpPost logout_url (key_of (str_strip (requests.text r))) 10;
           Log lvl msg])%list).
Proof.
  intros Hpre Hrec Hm Hid.
  assert (fetch_supplier_id (pre ++ PDict d :: post) search_name = Ok PNone)
    as Hnone.
  { rewrite (fetch_supplier_id_first_match pre (PDict d)) by done.
    simpl. by rewrite Hid. }
  split; [done|]. split.
  { intros others Hothers. by rewrite Hnone, fetch_supplier_id_no_match. }
  intros w r t2 lines Hw Hs Hfetch Htext Hlines. rewrite run_eq.
  destruct (main_authenticated w r Hw Hs) as (lvl & msg & ->).
  exists lvl, msg.
  rewrite (main_body_lookup w _ _ _ t2 lines PNone) by done.
  cbn [fst snd report truthy exit_status]. by rewrite <- !app_assoc.
Qed.

End lookup_claims.

(** ** The session life cycle and the exit status *)

Section entry_claims.
Context `{Config} `{Builtins}.

(** C7. Whenever authentication succeeds, exactly one request goes to
    the logout endpoint in the whole run, and it carries the session
    token: whatever the directory request, the table and the lookup do,
    raise or return. *)
Theorem logout_exactly_once w r :
  requests.on_post w auth_url credentials = requests.Replied r →
  status_ok r →
  logout_calls (run w).2 = [key_of (str_strip (requests.text r))].
Proof.
  intros Hw Hs. rewrite run_eq. cbn [snd].
  destruct (main_authenticated w r Hw Hs) as (lvl & msg & ->). cbn [snd].
  destruct (quiet_main_body w (str_strip (requests.text r))
              [HttpPost auth_url credentials 10;
               Log INFO (MsgAuthOk (str_strip (requests.text r)))])
    as (es & -> & Hes).
  rewrite !logout_calls_app, (logout_calls_quiet es Hes).
  unfold logout_calls. simpl.
  rewrite bool_decide_eq_false_2 by apply urls_distinct.
  by rewrite bool_decide_eq_true_2.
Qed.

(** C8. When the directory request fails in transport or by its status,
    [fetch_all_suppliers] logs the cause and returns the empty list, and
    the run goes on: the empty notice, the lookup, the logout, status 0. *)
Theorem failed_fetch_is_empty w r exc :
  requests.on_post w auth_url credentials = requests.Replied r →
  status_ok r →
  request_failure
    (requests.on_get w suppliers_url (key_of (str_strip (requests.text r)))) =
    Some exc →
  (∀ t,
     fetch_all_suppliers w (str_strip (requests.text r)) t =
       (Ok [], t ++ [HttpGet suppliers_url (key_of (str_strip (requests.text r))) 10;
                     Log ERROR (MsgFetchError exc)])%list) ∧
  ∃ lvl msg,
    run w =
      (0%Z,
       [HttpPost auth_url credentials 10;
        Log INFO (MsgAuthOk (str_strip (requests.text r)));
        HttpGet suppliers_url (key_of (str_strip (requests.text r))) 10;
        Log ERROR (MsgFetchError exc);
        Stdout "Список поставщиков пуст!";
        Log WARNING (MsgNotFound search_name);
        HttpPost logout_url (key_of (str_strip (requests.text r))) 10;
        Log lvl msg]).
Proof.
  intros Hw Hs Hf. split; [intros t; by apply fetch_failed|].
  rewrite run_eq.
  destruct (main_authenticated w r Hw Hs) as (lvl & msg & ->).
  exists lvl, msg.
  by rewrite (main_body_empty w _ _ _ (fetch_failed w _ exc _ Hf)).
Qed.


End entry_claims.

(** ** The claims on the sample server *)

Section samples.
#[local] Existing Instance Sample.config.
#[local] Existing Instance Sample.ascii_builtins.
Import Sample.

Lemma sample_status_ok body v x :
  status_ok {| requests.status_code := 200; requests.text := body;
               requests.json := v; requests.xml := x |}.
Proof. unfold status_ok. simpl. lia. Qed.

(** C1. A body that is neither JSON nor well-formed XML: the directory
    request raises [ParseError] after the fallback warning, no record
    list is returned, and the run ends after logout with status 1 and
    without the table or the report. *)
Theorem malformed_body_escapes :
  fetch_all_suppliers (serving truncated_doc) "tok-1" [] =
    (Raise ParseError,
     [HttpGet "https://iiko.example/resto/api/suppliers" [("key", "tok-1")] 10;
      Log WARNING MsgXmlFallback]) ∧
  run (serving truncated_doc) =
    (1%Z,
     [HttpPost "https://iiko.example/resto/api/auth"
        [("login", "api"); ("pass", "da39a3ee5e6b4b0d3255bfef95601890afd80709")] 10;
      Log INFO (MsgAuthOk "tok-1");
      HttpGet "https://iiko.example/resto/api/suppliers" [("key", "tok-1")] 10;
      Log WARNING MsgXmlFallback;
      HttpPost "https://iiko.example/resto/api/logout" [("key", "tok-1")] 10;
      Log INFO MsgLogoutOk]).
Proof. split; reflexivity. Qed.

Lemma json_body_verbatim_witness :
  fetch_all_suppliers (serving two_suppliers) "tok-1" [] =
    (Ok [acme; beta],
     [HttpGet "https://iiko.example/resto/api/suppliers" [("key", "tok-1")] 10]) ∧
  fetch_all_suppliers (serving json_object) "tok-1" [] =
    (Ok [],
     [HttpGet "https://iiko.example/resto/api/suppliers" [("key", "tok-1")] 10]).
Proof.
  split.
  - destruct (json_body_verbatim (serving two_suppliers) "tok-1" two_suppliers
                (PList [acme; beta]) [])
      as [Harray _]; [reflexivity | apply sample_status_ok | reflexivity |].
    exact (Harray _ eq_refl).
  - destruct (json_body_verbatim (serving json_object) "tok-1" json_object
                (record [("error", PStr "busy")]) [])
      as [_ Hother]; [reflexivity | apply sample_status_ok | reflexivity |].
    refine (Hother _). intros l Hl. discriminate Hl.
Defined.

Lemma unknown_root_is_empty_witness :
  fetch_all_suppliers (serving html_doc) "tok-1" [] =
    (Ok [],
     [HttpGet "https://iiko.example/resto/api/suppliers" [("key", "tok-1")] 10;
      Log WARNING MsgXmlFallback;
      Log ERROR (MsgUnknownRoot "html")]).
Proof.
  refine (unknown_root_is_empty (serving html_doc) "tok-1" html_doc html_root []
            _ _ _ _ _ _).
  - reflexivity.
  - apply sample_status_ok.
  - reflexivity.
  - reflexivity.
  - simpl. discriminate.
  - simpl. discriminate.
Defined.

Lemma duplicate_tag_last_wins_witness :
  emp_data two_phones !! "phone" = Some (PStr "222").
Proof.
  refine (proj1 (duplicate_tag_last_wins two_phones [] (leaf "phone" "111")
                   [leaf "name" "Beta LLC"] (leaf "phone" "222") [] _ _ _)).
  - reflexivity.
  - reflexivity.
  - constructor.
Defined.

(** C5 as the specification words it fails on an element with two
    children of one tag: the record of

      <employee><phone>111</phone><name>Beta LLC</name><phone>222</phone></employee>

    has 222 under [phone], not the text of the first [phone] child. *)
Lemma first_duplicate_is_lost :
  fetch_all_suppliers (serving two_phones_doc) "tok-1" [] =
    (Ok [record [("phone", PStr "222"); ("name", PStr "Beta LLC")]],
     [HttpGet "https://iiko.example/resto/api/suppliers" [("key", "tok-1")] 10;
      Log WARNING MsgXmlFallback]) ∧
  ¬ maps_every_child two_phones
      (record [("phone", PStr "222"); ("name", PStr "Beta LLC")]).
Proof.
  split; [reflexivity|].
  intros (d & Hd & Hall). injection Hd as <-.
  specialize (Hall (leaf "phone" "111")).
  discriminate Hall. simpl. left.
Qed.

Lemma xml_body_records_witness :
  (∃ records,
     fetch_all_suppliers (serving employees_doc) "tok-1" [] =
       (Ok records,
        [HttpGet "https://iiko.example/resto/api/suppliers" [("key", "tok-1")] 10;
         Log WARNING MsgXmlFallback]) ∧
     Forall2 record_of [beta_employee] records) ∧
  (∃ rec,
     fetch_all_suppliers (serving two_phones_doc) "tok-1" [] =
       (Ok [rec],
        [HttpGet "https://iiko.example/resto/api/suppliers" [("key", "tok-1")] 10;
         Log WARNING MsgXmlFallback]) ∧
     record_of two_phones rec).
Proof.
  split.
  - destruct (xml_body_records (serving employees_doc) "tok-1" employees_doc
                employees_root [])
      as [Hmany _]; [reflexivity | apply sample_status_ok | reflexivity.. |].
    exact (Hmany eq_refl).
  - destruct (xml_body_records (serving two_phones_doc) "tok-1" two_phones_doc
                two_phones [])
      as [_ Hone]; [reflexivity | apply sample_status_ok | reflexivity.. |].
    exact (Hone eq_refl).
Defined.

(** C2 as the specification words it fails on a query with surrounding
    whitespace: trimmed and case-folded on both sides, the name of the
    record and the query are equal, yet the lookup finds nothing. *)
Lemma query_is_not_trimmed :
  findByName_spec [acme] " acme co" = Some (PStr "42") ∧
  fetch_supplier_id [acme] " acme co" = Ok PNone.
Proof. split; reflexivity. Qed.

Lemma fetch_supplier_id_first_match_wins_witness :
  fetch_supplier_id [beta; acme; without_id] "ACME CO" = Ok (PStr "42") ∧
  fetch_supplier_id [beta; acme; without_id] "Gamma" = Ok PNone ∧
  fetch_supplier_id [] "Gamma" = Ok PNone.
Proof.
  assert (Forall is_record [beta; acme; without_id]) as Hrec.
  { repeat constructor. }
  split; [|split].
  - refine (proj1 (fetch_supplier_id_first_match_wins _ "ACME CO" Hrec)
              [beta] acme [without_id] eq_refl _ _).
    + constructor; [|constructor]. vm_compute. discriminate.
    + vm_compute. reflexivity.
  - refine (proj2 (fetch_supplier_id_first_match_wins _ "Gamma" Hrec) _).
    repeat constructor; vm_compute; discriminate.
  - refine (proj2 (fetch_supplier_id_first_match_wins [] "Gamma" _) _); constructor.
Defined.

Lemma missing_id_reports_not_found_witness :
  fetch_supplier_id [beta; without_id] search_name = Ok PNone ∧
  (∃ lines lvl msg,
     run (serving supplier_without_id) =
       (0%Z,
        [HttpPost "https://iiko.example/resto/api/auth"
           [("login", "api"); ("pass", "da39a3ee5e6b4b0d3255bfef95601890afd80709")] 10;
         Log INFO (MsgAuthOk "tok-1");
         HttpGet "https://iiko.example/resto/api/suppliers" [("key", "tok-1")] 10] ++
        map Stdout lines ++
        [Log WARNING (MsgNotFound search_name);
         HttpPost "https://iiko.example/resto/api/logout" [("key", "tok-1")] 10;
         Log lvl msg])%list) ∧
  (∃ lines lvl msg,
     run (serving xml_without_id) =
       (0%Z,
        [HttpPost "https://iiko.example/resto/api/auth"
           [("login", "api"); ("pass", "da39a3ee5e6b4b0d3255bfef95601890afd80709")] 10;
         Log INFO (MsgAuthOk "tok-1");
         HttpGet "https://iiko.example/resto/api/suppliers" [("key", "tok-1")] 10;
         Log WARNING MsgXmlFallback] ++
        map Stdout lines ++
        [Log WARNING (MsgNotFound search_name);
         HttpPost "https://iiko.example/resto/api/logout" [("key", "tok-1")] 10;
         Log lvl msg])%list).
Proof.
  destruct (missing_id_reports_not_found [beta]
              (list_to_map [("code", PStr "17"); ("name", PStr "Лубчук Л.В. ФОП")]) [])
    as (Hnone & _ & Hjson).
  { constructor; [|constructor]. split; [exact I|]. vm_compute. discriminate. }
  { exact I. }
  { vm_compute. reflexivity. }
  { reflexivity. }
  destruct (missing_id_reports_not_found []
              (list_to_map [("name", PStr "Лубчук Л.В. ФОП"); ("code", PStr "17")]) [])
    as (_ & _ & Hxml).
  { constructor. }
  { exact I. }
  { vm_compute. reflexivity. }
  { reflexivity. }
  split; [exact Hnone|]. split.
  - edestruct (Hjson (serving supplier_without_id) token_response)
      as (lvl & msg & Hrun);
      [reflexivity | apply sample_status_ok | reflexivity | reflexivity
      | repeat constructor |].
    eexists _, lvl, msg. exact Hrun.
  - edestruct (Hxml (serving xml_without_id) token_response)
      as (lvl & msg & Hrun);
      [reflexivity | apply sample_status_ok | reflexivity | reflexivity
      | repeat constructor |].
    eexists _, lvl, msg. exact Hrun.
Defined.

Lemma logout_exactly_once_witness :
  logout_calls (run (serving truncated_doc)).2 = [[("key", "tok-1")]] ∧
  logout_calls (run (serving two_suppliers)).2 = [[("key", "tok-1")]].
Proof.
  split.
  - refine (logout_exactly_once (serving truncated_doc) token_response _ _).
    + reflexivity.
    + apply sample_status_ok.
  - refine (logout_exactly_once (serving two_suppliers) token_response _ _).
    + reflexivity.
    + apply sample_status_ok.
Defined.

Lemma failed_fetch_is_empty_witness :
  ∃ lvl msg,
    run (serving unavailable) =
      (0%Z,
       [HttpPost "https://iiko.example/resto/api/auth"
          [("login", "api"); ("pass", "da39a3ee5e6b4b0d3255bfef95601890afd80709")] 10;
        Log INFO (MsgAuthOk "tok-1");
        HttpGet "https://iiko.example/resto/api/suppliers" [("key", "tok-1")] 10;
        Log ERROR (MsgFetchError (HTTPError 503));
        Stdout "Список поставщиков пуст!";
        Log WARNING (MsgNotFound search_name);
        HttpPost "https://iiko.example/resto/api/logout" [("key", "tok-1")] 10;
        Log lvl msg]).
Proof.
  refine (proj2 (failed_fetch_is_empty (serving unavailable) token_response
                   (HTTPError 503) _ _ _)).
  - reflexivity.
  - apply sample_status_ok.
  - reflexivity.
Defined.



(** The scenarios of the specification: a JSON directory queried in
    another case, an XML directory queried for a supplier it has and for
    one it has not. *)
Example json_scenario :
  fetch_all_suppliers (serving two_suppliers) "tok-1" [] =
    (Ok [acme; beta],
     [HttpGet "https://iiko.example/resto/api/suppliers" [("key", "tok-1")] 10]) ∧
  fetch_supplier_id [acme; beta] "acme co" = Ok (PStr "42").
Proof. split; reflexivity. Qed.

Example xml_scenario :
  ∃ records,
    fetch_all_suppliers (serving employees_doc) "tok-1" [] =
      (Ok records,
       [HttpGet "https://iiko.example/resto/api/suppliers" [("key", "tok-1")] 10;
        Log WARNING MsgXmlFallback]) ∧
    length records = 1 ∧
    fetch_supplier_id records "Beta LLC" = Ok (PStr "7") ∧
    fetch_supplier_id records "Gamma" = Ok PNone.
Proof. eexists. split; [reflexivity|]. repeat split. Qed.

End samples.

(** * Further properties of the script *)

(** ** login and logout *)

Section session_properties.
Context `{Config} `{Builtins}.

(** X1. [logout] never raises: whatever the server does, it returns
    after one POST to the logout URL with the token and one log record,
    which is at level INFO exactly when a reply with status 200 came
    back (any other status, and a failed request, is a warning). *)
Theorem logout_never_raises w token t :
  ∃ lvl msg,
    logout w token t =
      (Ok tt, t ++ [HttpPost logout_url (key_of token) 10; Log lvl msg])%list ∧
    (lvl = INFO ↔
     ∃ r, requests.on_post w logout_url (key_of token) = requests.Replied r ∧
          requests.status_code r = 200%Z).
Proof.
  unfold logout, try_except, key_of.
  destruct (requests.on_post w logout_url [("key", token)]) as [why|r] eqn:Hw.
  - exists WARNING, (MsgLogoutError (ConnectionError why)).
    rewrite bind_run, (session_post_noreply _ _ _ _ why) by done.
    simpl. unfold logging, emit. rewrite <- app_assoc. split; [done|].
    split; [done|]. by intros (r & Hr & _).
  - rewrite bind_run, (session_post_replied _ _ _ _ r) by done.
    case_bool_decide as Hcode.
    + exists INFO, MsgLogoutOk. unfold logging, emit. rewrite <- app_assoc.
      split; [done|]. split; [|done]. intros _. by exists r.
    + exists WARNING, (MsgLogoutStatus (requests.status_code r)).
      unfold logging, emit. rewrite <- app_assoc. split; [done|].
      split; [done|]. intros (r' & Hr & Hc). by simplify_eq.
Qed.

(** X2. [login] has two outcomes and no other. A reply whose status is
    outside 400..599 (200, but also 204 or 302) makes it return the
    stripped body as the token, after an INFO record; a failed request
    or a status in 400..599 makes it log the cause and raise
    [SystemExit(1)]. Either way it made one POST to the auth URL with the
    login and the password hash. *)
Theorem login_returns_or_exits w t :
  (∃ r,
     requests.on_post w auth_url credentials = requests.Replied r ∧
     status_ok r ∧
     login w t =
       (Ok (str_strip (requests.text r)),
        t ++ [HttpPost auth_url credentials 10;
              Log INFO (MsgAuthOk (str_strip (requests.text r)))])%list) ∨
  (∃ exc,
     request_failure (requests.on_post w auth_url credentials) = Some exc ∧
     login w t =
       (Raise (SystemExit 1),
        t ++ [HttpPost auth_url credentials 10;
              Log ERROR (MsgAuthError exc)])%list).
Proof.
  destruct (requests.on_post w auth_url credentials) as [why|r] eqn:Hw.
  - right. exists (ConnectionError why). split; [done|]. by apply login_noreply.
  - destruct (decide (status_ok r)) as [Hs|Hs].
    + left. exists r. split; [done|]. split; [done|]. by apply login_replied.
    + right. exists (HTTPError (requests.status_code r)). split.
      * simpl. rewrite bool_decide_eq_true_2; [done|]. by apply dec_stable.
      * by apply login_http_error.
Qed.

(** X3. When authentication fails the run is over at once: the trace is
    the auth request and the error record, there is no directory
    request and no logout, and the status is 1. *)
Theorem failed_login_stops_the_run w exc :
  request_failure (requests.on_post w auth_url credentials) = Some exc →
  run w =
    (1%Z, [HttpPost auth_url credentials 10; Log ERROR (MsgAuthError exc)]).
Proof. intros Hf. by rewrite run_eq, (main_auth_failed w exc). Qed.

End session_properties.

(** ** The directory request *)

Section fetch_properties.
Context `{Config} `{Builtins}.

(** The shape of every call: the GET first, then log records only, and
    a list, [ParseError] or [RecursionError]. *)
Lemma fetch_trace w token t :
  ∃ r es,
    fetch_all_suppliers w token t =
      (r, t ++ HttpGet suppliers_url (key_of token) 10 :: es)%list ∧
    Forall (λ ev, is_request ev = false) es ∧
    (r = Raise ParseError ∨ r = Raise RecursionError ∨ ∃ l, r = Ok l).
Proof.
  destruct (request_failure (requests.on_get w suppliers_url (key_of token)))
    as [exc|] eqn:Hf.
  { rewrite (fetch_failed w token exc) by done.
    eexists _, [_]. split; [done|]. split; [by repeat constructor|]. eauto. }
  destruct (requests.on_get w suppliers_url (key_of token)) as [why|rd] eqn:Hw;
    [done|].
  simpl in Hf. case_bool_decide as Hs; [done|].
  destruct (requests.json rd) as [v| |] eqn:Hj.
  { rewrite (fetch_json w token rd v) by done.
    eexists _, []. split; [done|]. split; [constructor|]. eauto. }
  2:{ rewrite (fetch_too_deep w token rd) by done.
      eexists _, []. split; [done|]. split; [constructor|]. eauto. }
  rewrite (fetch_not_json w token rd) by done.
  destruct (requests.xml rd) as [root|] eqn:Hx.
  - destruct (decide (ElementTree.tag root = "employees")) as [He|Hne].
    { rewrite (suppliers_from_xml_employees rd root) by done.
      eexists _, [_]. rewrite <- app_assoc. split; [done|].
      split; [by repeat constructor|]. eauto. }
    destruct (decide (ElementTree.tag root = "employee")) as [He|Hne'].
    { rewrite (suppliers_from_xml_employee rd root) by done.
      eexists _, [_]. rewrite <- app_assoc. split; [done|].
      split; [by repeat constructor|]. eauto. }
    rewrite (suppliers_from_xml_unknown rd root) by done.
    eexists _, [_; _]. rewrite <- app_assoc. split; [done|].
    split; [by repeat constructor|]. eauto.
  - rewrite suppliers_from_xml_malformed by done.
    eexists _, [_]. rewrite <- app_assoc. split; [done|].
    split; [by repeat constructor|]. eauto.
Qed.

(** X18. A [RecursionError] out of [response.json()], on a body nested
    too deep, is caught by neither handler: it leaves
    [fetch_all_suppliers] right after the GET, with nothing logged and
    no fall-back to XML; [main] then logs out and the process ends with
    status 1, the table and the report skipped. *)
Theorem recursion_error_escapes w r rd :
  requests.on_post w auth_url credentials = requests.Replied r →
  status_ok r →
  requests.on_get w suppliers_url (key_of (str_strip (requests.text r))) =
    requests.Replied rd →
  status_ok rd →
  requests.json rd = requests.TooDeep →
  (∀ t,
     fetch_all_suppliers w (str_strip (requests.text r)) t =
       (Raise RecursionError,
        t ++ [HttpGet suppliers_url (key_of (str_strip (requests.text r))) 10])%list) ∧
  ∃ lvl msg,
    run w =
      (1%Z,
       [HttpPost auth_url credentials 10;
        Log INFO (MsgAuthOk (str_strip (requests.text r)));
        HttpGet suppliers_url (key_of (str_strip (requests.text r))) 10;
        HttpPost logout_url (key_of (str_strip (requests.text r))) 10;
        Log lvl msg]).
Proof.
  intros Hw Hs Hwd Hsd Hj. split; [intros t; by apply (fetch_too_deep w _ rd)|].
  rewrite run_eq.
  destruct (main_authenticated w r Hw Hs) as (lvl & msg & ->).
  exists lvl, msg.
  by rewrite (main_body_fetch_raises w _ _ RecursionError _
                (fetch_too_deep w _ rd _ Hwd Hsd Hj)).
Qed.

(** X5. Whatever an XML directory holds, the lookup over its records
    never raises, and what it returns is [None] or a str: every value of
    such a record was made by [child.text or ""]. *)
Theorem xml_lookup_returns_str_or_none w token rd root t supplier_name :
  requests.on_get w suppliers_url (key_of token) = requests.Replied rd →
  status_ok rd →
  requests.json rd = requests.NotJson →
  requests.xml rd = Some root →
  ∃ records,
    (fetch_all_suppliers w token t).1 = Ok records ∧
    (fetch_supplier_id records supplier_name = Ok PNone ∨
     ∃ s, fetch_supplier_id records supplier_name = Ok (PStr s)).
Proof.
  intros Hw Hs Hj Hx. rewrite (fetch_not_json w token rd) by done.
  assert (∀ emps,
            fetch_supplier_id (map (λ emp, PDict (emp_data emp)) emps) supplier_name
              = Ok PNone ∨
            ∃ s, fetch_supplier_id (map (λ emp, PDict (emp_data emp)) emps)
                   supplier_name = Ok (PStr s)) as Hscan.
  { induction emps as [|emp emps IH]; [by left|].
    cbn [map]. rewrite fetch_supplier_id_cons by apply emp_data_is_record.
    case_decide; [|done]. simpl. rewrite emp_data_lookup.
    destruct (last (filter _ _)); simpl; eauto. }
  destruct (decide (ElementTree.tag root = "employees")) as [He|Hne].
  { rewrite (suppliers_from_xml_employees rd root) by done. eauto. }
  destruct (decide (ElementTree.tag root = "employee")) as [He|Hne'].
  { rewrite (suppliers_from_xml_employee rd root) by done.
    eexists. split; [done|]. apply (Hscan [root]). }
  rewrite (suppliers_from_xml_unknown rd root) by done.
  eexists. split; [done|]. by left.
Qed.

End fetch_properties.

(** ** The lookup *)

Section lookup_properties.
Context `{Config} `{Builtins}.

(** X6. The query counts only through its lower-cased form: two queries
    with the same [lower()] get the same answer, or the same exception,
    over any list whatever. *)
Theorem lookup_ignores_query_case suppliers q1 q2 :
  str_lower q1 = str_lower q2 →
  fetch_supplier_id suppliers q1 = fetch_supplier_id suppliers q2.
Proof.
  intros Hq. induction suppliers as [|sup rest IH]; [done|].
  cbn [fetch_supplier_id]. by rewrite Hq, IH.
Qed.

(** X7. The scan returns at the first match and looks no further:
    what follows the matching record, be it a second record of the same
    name or a value that is no record at all, changes nothing. *)
Theorem lookup_stops_at_first_match pre r post supplier_name :
  Forall (λ x, is_record x ∧ ¬ name_matches x supplier_name) pre →
  is_record r →
  name_matches r supplier_name →
  fetch_supplier_id (pre ++ r :: post) supplier_name = Ok (record_id r) ∧
  fetch_supplier_id (pre ++ r :: post) supplier_name =
    fetch_supplier_id (pre ++ [r]) supplier_name.
Proof.
  intros Hpre Hr Hm.
  by rewrite !(fetch_supplier_id_first_match pre r).
Qed.

(** X8. A value that is no record, met before any match, makes the
    lookup raise [AttributeError]: for [get] when it is not a dict, for
    [strip] when it is a dict whose name is present and not a str (a
    JSON null, a number). *)
Theorem lookup_raises_on_bad_record pre v post supplier_name :
  Forall (λ x, is_record x ∧ ¬ name_matches x supplier_name) pre →
  (¬ is_dict v →
   fetch_supplier_id (pre ++ v :: post) supplier_name =
     Raise (AttributeError "get")) ∧
  (∀ d x, v = PDict d → d !! "name" = Some x → (∀ s, x ≠ PStr s) →
   fetch_supplier_id (pre ++ v :: post) supplier_name =
     Raise (AttributeError "strip")).
Proof.
  intros Hpre.
  assert (∀ tail,
            fetch_supplier_id (pre ++ tail) supplier_name =
            fetch_supplier_id tail supplier_name) as Hskip.
  { intros tail. induction Hpre as [|r l [Hr Hn] _ IH]; [done|].
    cbn [app]. rewrite fetch_supplier_id_cons by done. by case_decide. }
  split.
  - intros Hv. rewrite Hskip. by destruct v.
  - intros d x -> Hname Hx. rewrite Hskip. cbn [fetch_supplier_id py_get].
    rewrite Hname. simpl. destruct x; try done. by destruct (Hx s).
Qed.

(** X17. A record without a [name] field is read as having the empty
    name: it is the match of every query whose lower-cased form is that
    of the stripped empty string, the empty query for one, and its id
    (or [None]) is returned though it has no name at all. *)
Theorem nameless_record_matches_empty_query d rest supplier_name :
  d !! "name" = None →
  str_lower (str_strip "") = str_lower supplier_name →
  fetch_supplier_id (PDict d :: rest) supplier_name = Ok (default PNone (d !! "id")).
Proof.
  intros Hname Hq.
  rewrite fetch_supplier_id_cons by (simpl; by rewrite Hname).
  case_decide as Hm; [done|]. destruct Hm.
  unfold name_matches, record_name. by rewrite Hname.
Qed.

End lookup_properties.

(** ** The table *)

Section table_properties.
Context `{Config} `{Builtins}.

Lemma table_rows_length suppliers rows :
  mapM table_row suppliers = Ok rows → length rows = length suppliers.
Proof.
  revert rows. induction suppliers as [|v l IH]; intros rows Hrows.
  - by injection Hrows as <-.
  - rewrite mapM_result_cons in Hrows.
    destruct (table_row v) as [row|e]; [|done].
    destruct (mapM table_row l) as [rows'|e]; [|done].
    injection Hrows as <-. simpl. by rewrite (IH rows').
Qed.

Lemma table_rows_cells suppliers rows :
  mapM table_row suppliers = Ok rows → Forall (λ row, length row = 5) rows.
Proof.
  revert rows. induction suppliers as [|v l IH]; intros rows Hrows.
  - injection Hrows as <-. constructor.
  - rewrite mapM_result_cons in Hrows.
    destruct v; try done.
    destruct (table_row_dict d) as [row Hrow].
    assert (length row = 5) as Hlen.
    { unfold table_row, columns in Hrow. by injection Hrow as <-. }
    rewrite Hrow in Hrows.
    destruct (mapM table_row l) as [rows'|e]; [|done].
    injection Hrows as <-. constructor; [done|]. by apply IH.
Qed.

Lemma table_text_length suppliers lines :
  suppliers ≠ [] →
  table_text suppliers = Ok lines →
  length lines = length suppliers + 4 ∧
  lines !! 0 = lines !! 2 ∧ lines !! 0 = last lines.
Proof.
  intros Hne Htext. unfold table_text in Htext.
  rewrite bool_decide_eq_false_2 in Htext by done.
  destruct (mapM table_row suppliers) as [rows|e] eqn:Hrows; [|done].
  injection Htext as <-. unfold table_lines. split; [|split].
  - rewrite !length_app, length_map, (table_rows_length _ _ Hrows).
    simpl. lia.
  - done.
  - by rewrite !app_assoc, last_snoc.
Qed.


(** X10. The table is printed whole or not at all: when one element of
    the list is not a dict, wherever it stands, [AttributeError] is
    raised before the first line is printed. *)
Theorem table_is_all_or_nothing pre v post t :
  ¬ is_dict v →
  pretty_print_suppliers (pre ++ v :: post) t = (Raise (AttributeError "get"), t) ∧
  printed (pretty_print_suppliers (pre ++ v :: post) t).2 = printed t.
Proof.
  intros Hv.
  assert (pretty_print_suppliers (pre ++ v :: post) t =
            (Raise (AttributeError "get"), t)) as ->; [|done].
  apply pretty_print_other. intros Hall.
  apply Forall_app in Hall as [_ Hall]. by apply Forall_cons in Hall as [? _].
Qed.


End table_properties.

(** ** The alignment of the table *)

Section table_alignment.
Context `{Config} `{Builtins}.
Hypothesis Hlen : len_counts_characters.

Lemma len_app a b : str_len (a ++ b) = str_len a + str_len b.
Proof. apply Hlen. Qed.

Lemma len_empty : str_len "" = 0.
Proof.
  pose proof (len_app "" "") as Hsum. change ("" ++ "") with "" in Hsum. lia.
Qed.

Lemma len_bar : str_len "|" = 1 ∧ str_len "+" = 1 ∧ str_len "-" = 1 ∧ str_len " " = 1.
Proof. repeat split; by apply Hlen. Qed.

Lemma len_mul s n : str_len (str_mul s n) = n * str_len s.
Proof.
  induction n as [|n IH]; simpl; [apply len_empty|].
  rewrite len_app, IH. lia.
Qed.

Lemma len_ljust s w : (str_len s ≤ w)%nat → str_len (ljust s w) = w.
Proof.
  intros Hs. unfold ljust. rewrite len_app, len_mul.
  destruct len_bar as (_ & _ & _ & ->). lia.
Qed.

Lemma len_separator w0 w1 w2 w3 w4 :
  str_len (table_separator [w0; w1; w2; w3; w4]) = w0 + w1 + w2 + w3 + w4 + 16.
Proof.
  unfold table_separator, str_join. cbn [map String.concat].
  rewrite !len_app, !len_mul.
  destruct len_bar as (_ & -> & -> & _). lia.
Qed.

Lemma len_line w0 w1 w2 w3 w4 c0 c1 c2 c3 c4 :
  (str_len c0 ≤ w0)%nat → (str_len c1 ≤ w1)%nat → (str_len c2 ≤ w2)%nat →
  (str_len c3 ≤ w3)%nat → (str_len c4 ≤ w4)%nat →
  str_len (table_line [w0; w1; w2; w3; w4] [c0; c1; c2; c3; c4]) =
    w0 + w1 + w2 + w3 + w4 + 16.
Proof.
  intros H0' H1' H2' H3' H4'. unfold table_line, str_join.
  cbn [length seq map String.concat lookup_total list_lookup_total].
  rewrite !len_app, !len_ljust by done.
  destruct len_bar as (-> & _ & _ & ->). lia.
Qed.

(** A cell is never wider than its column. *)
Lemma cell_fits rows row i :
  row ∈ (rows ++ [map str_upper columns])%list →
  (str_len (row !!! i) ≤
     max_list (map (λ row : list string, str_len (row !!! i))
                   (rows ++ [map str_upper columns])%list))%nat.
Proof.
  intros Hrow. apply max_list_elem_of_le.
  apply list_elem_of_In, in_map_iff. exists row. split; [done|].
  by apply list_elem_of_In.
Qed.

Lemma len_table_line rows row :
  row ∈ (rows ++ [map str_upper columns])%list →
  length row = 5 →
  str_len (table_line (col_widths rows) row) =
    str_len (table_separator (col_widths rows)).
Proof.
  intros Hrow Hfive.
  destruct row as [|c0 [|c1 [|c2 [|c3 [|c4 [|]]]]]]; try done.
  unfold col_widths, columns. cbn [length seq map].
  rewrite len_separator. apply len_line.
  - apply (cell_fits rows _ 0 Hrow).
  - apply (cell_fits rows _ 1 Hrow).
  - apply (cell_fits rows _ 2 Hrow).
  - apply (cell_fits rows _ 3 Hrow).
  - apply (cell_fits rows _ 4 Hrow).
Qed.

(** X12. With a [len] that adds up over concatenation and counts an
    ASCII character as one, the table over a non-empty list of dicts is
    aligned: every line of its text, separator, header or row, has the
    same length, since no cell is wider than its column; so has every
    line that is printed, all of them when the console takes them all. *)
Theorem table_is_aligned suppliers t :
  Forall is_dict suppliers →
  suppliers ≠ [] →
  ∃ width lines,
    table_text suppliers = Ok lines ∧
    Forall (λ line, str_len line = width) lines ∧
    (∃ r out,
       pretty_print_suppliers suppliers t = (r, t ++ map Stdout out)%list ∧
       Forall (λ line, str_len line = width) out) ∧
    (Forall printable lines →
     pretty_print_suppliers suppliers t = (Ok tt, t ++ map Stdout lines)%list).
Proof.
  intros Hl Hne. destruct (table_rows_dicts suppliers Hl) as [rows Hrows].
  assert (table_text suppliers = Ok (table_lines rows)) as Htext.
  { unfold table_text. rewrite bool_decide_eq_false_2 by done. by rewrite Hrows. }
  assert (Forall (λ line, str_len line = str_len (table_separator (col_widths rows)))
            (table_lines rows)) as Hwidth.
  { pose proof (table_rows_cells _ _ Hrows) as Hcells.
    unfold table_lines. repeat apply Forall_app_2; repeat apply Forall_cons_2;
      try apply Forall_nil_2; try done.
    - apply len_table_line; [|done]. apply elem_of_app. right. by left.
    - apply List.Forall_map, Forall_forall. intros row Hrow.
      apply len_table_line.
      + apply elem_of_app. by left.
      + by apply (proj1 (Forall_forall _ _) Hcells). }
  exists (str_len (table_separator (col_widths rows))), (table_lines rows).
  split; [done|]. split; [done|]. split.
  - eexists _, _. rewrite pretty_print_console, Htext. split; [done|].
    by apply accepted_Forall.
  - intros Hlines. destruct (accepted_all _ Hlines) as [Hacc Hout].
    by rewrite pretty_print_console, Htext, Hout, Hacc.
Qed.

End table_alignment.

(** ** The run as a whole *)

Section run_properties.
Context `{Config} `{Builtins}.

Lemma requests_of_app t1 t2 :
  requests_of (t1 ++ t2)%list = (requests_of t1 ++ requests_of t2)%list.
Proof. apply List.filter_app. Qed.

Lemma requests_of_local es :
  Forall (λ ev, is_request ev = false) es → requests_of es = [].
Proof.
  induction 1 as [|ev es Hev _ IH]; [done|].
  unfold requests_of in *. simpl. by rewrite Hev.
Qed.

(** Every outcome of the [try] block: the GET, then records and lines
    only, and no [SystemExit]. *)
Lemma main_body_outcome w token t :
  ∃ r es,
    main_body w token t =
      (r, t ++ HttpGet suppliers_url (key_of token) 10 :: es)%list ∧
    Forall (λ ev, is_request ev = false) es ∧
    (r = Ok tt ∨ r = Raise ParseError ∨ r = Raise RecursionError ∨
     r = Raise UnicodeEncodeError ∨ ∃ attr, r = Raise (AttributeError attr)).
Proof.
  destruct (fetch_trace w token t) as (r & es & Hfetch & Hes & [-> | [-> | [l ->]]]).
  { rewrite (main_body_fetch_raises w token t _ _ Hfetch). eauto 10. }
  { rewrite (main_body_fetch_raises w token t _ _ Hfetch). eauto 10. }
  rewrite (main_body_run w token t l _ Hfetch).
  destruct (decide (Forall is_dict l)) as [Hl|Hl].
  2:{ rewrite table_text_other by done. eauto 10. }
  destruct (table_text_dicts l Hl) as [lines ->].
  assert (Forall (λ ev, is_request ev = false) (es ++ map Stdout (accepted lines)))
    as Hlocal.
  { apply Forall_app. split; [done|]. by apply List.Forall_map, Forall_true. }
  destruct (print_outcome_cases lines) as [-> | ->].
  2:{ eexists _, _. rewrite <- app_assoc. cbn [app]. eauto 10. }
  destruct (fetch_supplier_id_outcome l search_name) as [[v ->]|[attr ->]].
  - eexists _, (es ++ map Stdout (accepted lines) ++ [report v])%list.
    rewrite <- !app_assoc. cbn [app]. split; [done|]. split; [|eauto].
    rewrite app_assoc. apply Forall_app. split; [done|].
    unfold report. destruct (truthy v); by repeat constructor.
  - eexists _, _. rewrite <- app_assoc. cbn [app]. eauto 10.
Qed.

Lemma auth_cases w :
  (∃ r, requests.on_post w auth_url credentials = requests.Replied r ∧ status_ok r) ∨
  (∃ exc, request_failure (requests.on_post w auth_url credentials) = Some exc).
Proof.
  destruct (requests.on_post w auth_url credentials) as [why|r]; [right; by eexists|].
  destruct (decide (status_ok r)) as [Hs|Hs]; [left; by exists r|].
  right. simpl. rewrite bool_decide_eq_true_2; [by eexists|]. by apply dec_stable.
Qed.

(** X13. A run that gets its token makes exactly three requests, in
    this order and each with a timeout of 10: the POST to the auth URL
    with the login and the password hash, one GET to the suppliers URL
    with the token as key, and the POST to the logout URL with the
    token. No request is repeated, none follows the logout. *)
Theorem three_requests_in_order w r :
  requests.on_post w auth_url credentials = requests.Replied r →
  status_ok r →
  requests_of (run w).2 =
    [HttpPost auth_url credentials 10;
     HttpGet suppliers_url (key_of (str_strip (requests.text r))) 10;
     HttpPost logout_url (key_of (str_strip (requests.text r))) 10].
Proof.
  intros Hw Hs. rewrite run_eq. cbn [snd].
  destruct (main_authenticated w r Hw Hs) as (lvl & msg & ->). cbn [snd].
  destruct (main_body_outcome w (str_strip (requests.text r))
              [HttpPost auth_url credentials 10;
               Log INFO (MsgAuthOk (str_strip (requests.text r)))])
    as (res & es & -> & Hes & _).
  cbn [snd].
  change (HttpGet suppliers_url (key_of (str_strip (requests.text r))) 10 :: es)
    with ([HttpGet suppliers_url (key_of (str_strip (requests.text r))) 10] ++ es)%list.
  rewrite !requests_of_app, (requests_of_local es Hes). reflexivity.
Qed.

(** X14. The exit status of the process is 0 or 1 and nothing else:
    the only [sys.exit] of the script passes 1, and every other
    exception that can leave [main] is an ordinary one. *)
Theorem exit_status_is_0_or_1 w :
  (run w).1 = 0%Z ∨ (run w).1 = 1%Z.
Proof.
  rewrite run_eq. cbn [fst].
  destruct (auth_cases w) as [(r & Hw & Hs)|(exc & Hf)].
  - destruct (main_authenticated w r Hw Hs) as (lvl & msg & ->). cbn [fst].
    destruct (main_body_outcome w (str_strip (requests.text r))
                [HttpPost auth_url credentials 10;
                 Log INFO (MsgAuthOk (str_strip (requests.text r)))])
      as (res & es & -> & _ & [-> | [-> | [-> | [-> | [attr ->]]]]]); cbn; auto.
  - rewrite (main_auth_failed w exc Hf). by right.
Qed.

(** X15. [main] tests the id it found for truth, not for presence: when
    the first matching record of the directory (JSON or XML) has an id
    that is falsy (the empty string, 0, false, an empty list) the run
    logs that the supplier was not found; when the id is truthy it
    logs the id. When the console took the table, the status is 0 in
    both cases. *)
Theorem falsy_id_is_reported_missing w r pre d post id t2 lines :
  requests.on_post w auth_url credentials = requests.Replied r →
  status_ok r →
  fetch_all_suppliers w (str_strip (requests.text r))
    [HttpPost auth_url credentials 10;
     Log INFO (MsgAuthOk (str_strip (requests.text r)))] =
    (Ok (pre ++ PDict d :: post)%list, t2) →
  Forall (λ x, is_record x ∧ ¬ name_matches x search_name) pre →
  is_record (PDict d) →
  name_matches (PDict d) search_name →
  d !! "id" = Some id →
  table_text (pre ++ PDict d :: post)%list = Ok lines →
  Forall printable lines →
  ∃ lvl msg,
    run w =
      (0%Z,
       t2 ++ map Stdout lines ++
       [(if truthy id
         then Log INFO (MsgFound search_name id)
         else Log WARNING (MsgNotFound search_name));
        HttpPost logout_url (key_of (str_strip (requests.text r))) 10;
        Log lvl msg])%list.
Proof.
  intros Hw Hs Hfetch Hpre Hrec Hm Hid Htext Hlines.
  assert (fetch_supplier_id (pre ++ PDict d :: post) search_name = Ok id)
    as Hfound.
  { rewrite (fetch_supplier_id_first_match pre (PDict d)) by done.
    simpl. by rewrite Hid. }
  rewrite run_eq.
  destruct (main_authenticated w r Hw Hs) as (lvl & msg & ->).
  exists lvl, msg.
  rewrite (main_body_lookup w _ _ _ t2 lines id) by done.
  cbn [fst snd exit_status]. unfold report. by rewrite <- !app_assoc.
Qed.

(** X16. The table comes before the lookup: when the lookup raises
    over a directory whose table the console took, all the lines of the
    table, four more than there are suppliers, are already printed;
    no report is logged, the logout follows, and the status is 1. *)
Theorem table_precedes_failing_lookup w r l t2 lines e :
  requests.on_post w auth_url credentials = requests.Replied r →
  status_ok r →
  fetch_all_suppliers w (str_strip (requests.text r))
    [HttpPost auth_url credentials 10;
     Log INFO (MsgAuthOk (str_strip (requests.text r)))] = (Ok l, t2) →
  table_text l = Ok lines →
  Forall printable lines →
  fetch_supplier_id l search_name = Raise e →
  (∃ lvl msg,
     run w =
       (1%Z,
        t2 ++ map Stdout lines ++
        [HttpPost logout_url (key_of (str_strip (requests.text r))) 10;
         Log lvl msg])%list) ∧
  length lines = length l + 4.
Proof.
  intros Hw Hs Hfetch Htext Hlines Hraise.
  assert (l ≠ []) as Hne by (by intros ->).
  split; [|by apply table_text_length].
  destruct (fetch_supplier_id_outcome l search_name) as [[v Hv]|[attr Hattr]];
    [by rewrite Hv in Hraise|].
  rewrite Hattr in Hraise. injection Hraise as <-.
  rewrite run_eq.
  destruct (main_authenticated w r Hw Hs) as (lvl & msg & ->).
  exists lvl, msg.
  rewrite (main_body_lookup_raises w _ _ _ t2 lines (AttributeError attr)) by done.
  cbn [fst snd exit_status]. by rewrite <- !app_assoc.
Qed.


End run_properties.

(** ** The further properties on the sample server *)

Section more_samples.
#[local] Existing Instance Sample.config.
#[local] Existing Instance Sample.ascii_builtins.
Import Sample.

Lemma sample_len_counts_characters : len_counts_characters.
Proof.
  split.
  - intros a b. simpl. induction a as [|c a IH]; [done|].
    change (String c a ++ b) with (String c (a ++ b)). simpl. by rewrite IH.
  - intros c _. reflexivity.
Qed.

Lemma failed_login_stops_the_run_witness :
  run (server (requests.NoReply "connection refused")
              (requests.Replied two_suppliers)
              (requests.Replied bye_response)) =
    (1%Z,
     [HttpPost "https://iiko.example/resto/api/auth"
        [("login", "api"); ("pass", "da39a3ee5e6b4b0d3255bfef95601890afd80709")] 10;
      Log ERROR (MsgAuthError (ConnectionError "connection refused"))]).
Proof.
  refine (failed_login_stops_the_run _ (ConnectionError "connection refused") _).
  reflexivity.
Defined.

Lemma xml_lookup_returns_str_or_none_witness :
  ∃ records,
    (fetch_all_suppliers (serving employees_doc) "tok-1" []).1 = Ok records ∧
    (fetch_supplier_id records "beta llc" = Ok PNone ∨
     ∃ s, fetch_supplier_id records "beta llc" = Ok (PStr s)).
Proof.
  refine (xml_lookup_returns_str_or_none (serving employees_doc) "tok-1"
            employees_doc employees_root [] "beta llc" _ _ _ _).
  - reflexivity.
  - apply sample_status_ok.
  - reflexivity.
  - reflexivity.
Defined.

Lemma lookup_ignores_query_case_witness :
  fetch_supplier_id [beta; acme] "ACME Co" = fetch_supplier_id [beta; acme] "acme co" ∧
  fetch_supplier_id [null_name] "ACME Co" = fetch_supplier_id [null_name] "acme co".
Proof.
  split.
  - refine (lookup_ignores_query_case [beta; acme] "ACME Co" "acme co" _).
    reflexivity.
  - refine (lookup_ignores_query_case [null_name] "ACME Co" "acme co" _).
    reflexivity.
Defined.

Lemma lookup_stops_at_first_match_witness :
  fetch_supplier_id [beta; acme; PInt 1; null_name] "acme co" = Ok (PStr "42").
Proof.
  refine (proj1 (lookup_stops_at_first_match [beta] acme [PInt 1; null_name]
                   "acme co" _ _ _)).
  - constructor; [|constructor]. split; [exact I|]. vm_compute. discriminate.
  - exact I.
  - vm_compute. reflexivity.
Defined.

Lemma lookup_raises_on_bad_record_witness :
  fetch_supplier_id [beta; PInt 1; acme] "acme co" = Raise (AttributeError "get") ∧
  fetch_supplier_id [beta; null_name; acme] "acme co" = Raise (AttributeError "strip").
Proof.
  assert (Forall (λ x, is_record x ∧ ¬ name_matches x "acme co") [beta]) as Hpre.
  { constructor; [|constructor]. split; [exact I|]. vm_compute. discriminate. }
  split.
  - refine (proj1 (lookup_raises_on_bad_record [beta] (PInt 1) [acme] "acme co" Hpre) _).
    intros [].
  - refine (proj2 (lookup_raises_on_bad_record [beta] null_name [acme] "acme co" Hpre)
              (list_to_map [("id", PStr "9"); ("name", PNone)]) PNone _ _ _).
    + reflexivity.
    + reflexivity.
    + intros s Hs. discriminate Hs.
Defined.

Lemma nameless_record_matches_empty_query_witness :
  fetch_supplier_id [nameless; beta] "" = Ok (PStr "13").
Proof.
  refine (nameless_record_matches_empty_query
            (list_to_map [("id", PStr "13"); ("code", PStr "K-13")]) [beta] "" _ _).
  - reflexivity.
  - reflexivity.
Defined.

Lemma table_is_all_or_nothing_witness :
  pretty_print_suppliers [acme; beta; PInt 1] [] = (Raise (AttributeError "get"), []).
Proof.
  refine (proj1 (table_is_all_or_nothing [acme; beta] (PInt 1) [] [] _)).
  intros [].
Defined.


Lemma three_requests_in_order_witness :
  requests_of (run (serving supplier_with_null_name)).2 =
    [HttpPost "https://iiko.example/resto/api/auth"
       [("login", "api"); ("pass", "da39a3ee5e6b4b0d3255bfef95601890afd80709")] 10;
     HttpGet "https://iiko.example/resto/api/suppliers" [("key", "tok-1")] 10;
     HttpPost "https://iiko.example/resto/api/logout" [("key", "tok-1")] 10].
Proof.
  refine (three_requests_in_order (serving supplier_with_null_name) token_response _ _).
  - reflexivity.
  - apply sample_status_ok.
Defined.


Lemma table_is_aligned_witness :
  ∃ width lines,
    table_text [acme; beta] = Ok lines ∧
    Forall (λ line, String.length line = width) lines ∧
    pretty_print_suppliers [acme; beta] [] = (Ok tt, map Stdout lines).
Proof.
  destruct (table_is_aligned sample_len_counts_characters [acme; beta] [])
    as (width & lines & Htext & Hwidth & _ & Hall).
  - repeat constructor.
  - discriminate.
  - exists width, lines. split; [exact Htext|]. split; [exact Hwidth|].
    apply Hall. injection Htext as <-. repeat constructor.
Defined.

Lemma falsy_id_is_reported_missing_witness :
  ∃ lines lvl msg,
    run (serving supplier_with_empty_id) =
      (0%Z,
       [HttpPost "https://iiko.example/resto/api/auth"
          [("login", "api"); ("pass", "da39a3ee5e6b4b0d3255bfef95601890afd80709")] 10;
        Log INFO (MsgAuthOk "tok-1");
        HttpGet "https://iiko.example/resto/api/suppliers" [("key", "tok-1")] 10] ++
       map Stdout lines ++
       [Log WARNING (MsgNotFound search_name);
        HttpPost "https://iiko.example/resto/api/logout" [("key", "tok-1")] 10;
        Log lvl msg])%list.
Proof.
  edestruct (falsy_id_is_reported_missing (serving supplier_with_empty_id)
               token_response []
               (list_to_map [("id", PStr ""); ("name", PStr "Лубчук Л.В. ФОП")]) []
               (PStr ""))
    as (lvl & msg & Hrun);
    [ reflexivity | apply sample_status_ok | reflexivity | constructor | exact I
    | vm_compute; reflexivity | reflexivity | reflexivity | repeat constructor | ].
  eexists _, lvl, msg. exact Hrun.
Defined.

Lemma table_precedes_failing_lookup_witness :
  ∃ lvl msg,
    run (serving supplier_with_null_name) =
      (1%Z,
       [HttpPost "https://iiko.example/resto/api/auth"
          [("login", "api"); ("pass", "da39a3ee5e6b4b0d3255bfef95601890afd80709")] 10;
        Log INFO (MsgAuthOk "tok-1");
        HttpGet "https://iiko.example/resto/api/suppliers" [("key", "tok-1")] 10;
        Stdout "+----+------+----------+----------+---------+";
        Stdout "| ID | CODE | NAME     | SUPPLIER | DELETED |";
        Stdout "+----+------+----------+----------+---------+";
        Stdout "| 7  |      | Beta LLC |          |         |";
        Stdout "| 9  |      | None     |          |         |";
        Stdout "+----+------+----------+----------+---------+";
        HttpPost "https://iiko.example/resto/api/logout" [("key", "tok-1")] 10;
        Log lvl msg]).
Proof.
  edestruct (table_precedes_failing_lookup (serving supplier_with_null_name)
               token_response [beta; null_name])
    as [(lvl & msg & Hrun) _];
    [ reflexivity | apply sample_status_ok | reflexivity | reflexivity
    | repeat constructor | reflexivity | ].
  exists lvl, msg. exact Hrun.
Defined.

Lemma recursion_error_escapes_witness :
  ∃ lvl msg,
    run (serving deep_doc) =
      (1%Z,
       [HttpPost "https://iiko.example/resto/api/auth"
          [("login", "api"); ("pass", "da39a3ee5e6b4b0d3255bfef95601890afd80709")] 10;
        Log INFO (MsgAuthOk "tok-1");
        HttpGet "https://iiko.example/resto/api/suppliers" [("key", "tok-1")] 10;
        HttpPost "https://iiko.example/resto/api/logout" [("key", "tok-1")] 10;
        Log lvl msg]).
Proof.
  refine (proj2 (recursion_error_escapes (serving deep_doc) token_response
                   deep_doc _ _ _ _ _)).
  - reflexivity.
  - apply sample_status_ok.
  - reflexivity.
  - unfold status_ok. simpl. lia.
  - reflexivity.
Defined.


End more_samples.
